(** * Offline queue and login-state logic of the Code Time editor extension

    Shallow embedding of
    - [sendOfflineData] and [isAuthenticated] (extension entry module),
    - [getUserStatus], [clearCachedLoggedInState], [refetchUserStatusLazily]
      and [userStatusFetchHandler] (lib/DataController.ts),
    - [onboardInit] and [secondaryWindowOnboarding] (onboarding module).

    Library code the repository calls but does not define ([JSON.parse],
    [isResponseOk], [isUserDeactivated], [serverIsAvailable], the HTTP
    client) is taken as input: a parse function, a response summary and
    probe outcomes. *)

From Stdlib Require Import Bool ZArith List String Ascii Lia.
Import ListNotations.
Open Scope string_scope.
Open Scope list_scope.
Set Warnings "-register-all".

(* ------------------------------------------------------------------ *)
(** ** JSON values and their JavaScript truthiness *)

Inductive json : Type :=
| JNull
| JBool (b : bool)
| JNum (z : Z)                     (** integer numbers only *)
| JStr (s : string)
| JArr (l : list json)
| JObj (l : list (string * json)).

(** [if (obj)] on a value produced by [JSON.parse]. *)
Definition truthy (v : json) : bool :=
  match v with
  | JNull => false
  | JBool b => b
  | JNum z => negb (Z.eqb z 0)
  | JStr s => negb (String.eqb s "")
  | JArr _ | JObj _ => true
  end.

(* ------------------------------------------------------------------ *)
(** ** [content.split(/\r?\n/)] *)

Definition LF : ascii := Ascii.ascii_of_nat 10.
Definition CR : ascii := Ascii.ascii_of_nat 13.

Definition cons_head (c : ascii) (l : list string) : list string :=
  match l with
  | [] => [String c EmptyString]
  | x :: xs => String c x :: xs
  end.

(** A separator is ["\r\n"] or ["\n"]; a [\r] not followed by [\n] stays in
    its segment. Like [String.prototype.split], the result is never empty. *)
Fixpoint split_crlf (s : string) : list string :=
  match s with
  | EmptyString => [EmptyString]
  | String c rest =>
      if Ascii.eqb c LF then EmptyString :: split_crlf rest
      else if Ascii.eqb c CR then
        match rest with
        | String c' rest' =>
            if Ascii.eqb c' LF then EmptyString :: split_crlf rest'
            else cons_head c (split_crlf rest)
        | EmptyString => cons_head c (split_crlf rest)
        end
      else cons_head c (split_crlf rest)
  end.

(* ------------------------------------------------------------------ *)
(** ** The parsing step of [sendOfflineData]

    [.map(item => { let obj = null; if (item) { try { obj = JSON.parse(item) }
    catch (e) {} } if (obj) return obj; }).filter(item => item)];
    [parse] stands for [JSON.parse], [None] for a thrown exception. *)

Section Payloads.
Variable parse : string -> option json.

Definition parse_item (item : string) : option json :=
  if String.eqb item "" then None
  else match parse item with
       | Some obj => if truthy obj then Some obj else None
       | None => None
       end.

Fixpoint keep_some (l : list (option json)) : list json :=
  match l with
  | [] => []
  | Some v :: r => v :: keep_some r
  | None :: r => keep_some r
  end.

Definition payloads (content : string) : list json :=
  keep_some (map parse_item (split_crlf content)).

End Payloads.

(* ------------------------------------------------------------------ *)
(** ** A [JSON.parse] for a subset of JSON

    Integers, strings without escapes, [true], [false], [null], arrays and
    objects, with blanks between tokens; anything else is refused (an
    exception in JavaScript). Used to run the code on concrete store files. *)

Definition DQ : ascii := Ascii.ascii_of_nat 34.

Definition is_blank (c : ascii) : bool :=
  Ascii.eqb c " " || Ascii.eqb c LF || Ascii.eqb c CR
  || Ascii.eqb c (Ascii.ascii_of_nat 9).

Fixpoint skip_ws (l : list ascii) : list ascii :=
  match l with
  | c :: r => if is_blank c then skip_ws r else l
  | [] => []
  end.

Fixpoint strip_prefix (p l : list ascii) : option (list ascii) :=
  match p, l with
  | [], _ => Some l
  | c :: p', d :: l' => if Ascii.eqb c d then strip_prefix p' l' else None
  | _ :: _, [] => None
  end.

Definition digit_val (c : ascii) : option Z :=
  let n := Z.of_nat (Ascii.nat_of_ascii c) in
  if (48 <=? n)%Z && (n <=? 57)%Z then Some (n - 48)%Z else None.

(** The longest run of digits, read as a number in base 10. *)
Fixpoint digits (acc : Z) (l : list ascii) : Z * list ascii :=
  match l with
  | c :: r =>
      match digit_val c with
      | Some d => digits (10 * acc + d)%Z r
      | None => (acc, l)
      end
  | [] => (acc, [])
  end.

Definition pnumber (l : list ascii) : option (Z * list ascii) :=
  match l with
  | c :: _ =>
      match digit_val c with
      | Some _ => Some (digits 0 l)
      | None => None
      end
  | [] => None
  end.

(** Characters up to the closing quote; a backslash is refused. *)
Fixpoint pstring (l : list ascii) : option (string * list ascii) :=
  match l with
  | [] => None
  | c :: r =>
      if Ascii.eqb c DQ then Some (EmptyString, r)
      else if Ascii.eqb c "\" then None
      else match pstring r with
           | Some (s, r') => Some (String c s, r')
           | None => None
           end
  end.

Fixpoint pvalue (fuel : nat) (l : list ascii) : option (json * list ascii) :=
  match fuel with
  | O => None
  | S f =>
      match skip_ws l with
      | [] => None
      | c :: r =>
          if Ascii.eqb c "n" then
            option_map (fun r' => (JNull, r')) (strip_prefix (list_ascii_of_string "ull") r)
          else if Ascii.eqb c "t" then
            option_map (fun r' => (JBool true, r')) (strip_prefix (list_ascii_of_string "rue") r)
          else if Ascii.eqb c "f" then
            option_map (fun r' => (JBool false, r')) (strip_prefix (list_ascii_of_string "alse") r)
          else if Ascii.eqb c DQ then
            option_map (fun '(s, r') => (JStr s, r')) (pstring r)
          else if Ascii.eqb c "-" then
            option_map (fun '(z, r') => (JNum (- z)%Z, r')) (pnumber r)
          else if Ascii.eqb c "[" then
            match skip_ws r with
            | d :: r' => if Ascii.eqb d "]" then Some (JArr [], r') else parr f r []
            | [] => None
            end
          else if Ascii.eqb c "{" then
            match skip_ws r with
            | d :: r' => if Ascii.eqb d "}" then Some (JObj [], r') else pobj f r []
            | [] => None
            end
          else option_map (fun '(z, r') => (JNum z, r')) (pnumber (c :: r))
      end
  end
with parr (fuel : nat) (l : list ascii) (acc : list json)
  : option (json * list ascii) :=
  match fuel with
  | O => None
  | S f =>
      match pvalue f l with
      | None => None
      | Some (v, r) =>
          match skip_ws r with
          | c :: r' =>
              if Ascii.eqb c "," then parr f r' (v :: acc)
              else if Ascii.eqb c "]" then Some (JArr (rev (v :: acc)), r')
              else None
          | [] => None
          end
      end
  end
with pobj (fuel : nat) (l : list ascii) (acc : list (string * json))
  : option (json * list ascii) :=
  match fuel with
  | O => None
  | S f =>
      match skip_ws l with
      | q :: r =>
          if negb (Ascii.eqb q DQ) then None else
          match pstring r with
          | None => None
          | Some (k, r1) =>
              match skip_ws r1 with
              | colon :: r2 =>
                  if negb (Ascii.eqb colon ":") then None else
                  match pvalue f r2 with
                  | None => None
                  | Some (v, r3) =>
                      match skip_ws r3 with
                      | c :: r4 =>
                          if Ascii.eqb c "," then pobj f r4 ((k, v) :: acc)
                          else if Ascii.eqb c "}" then Some (JObj (rev ((k, v) :: acc)), r4)
                          else None
                      | [] => None
                      end
                  end
              | [] => None
              end
          end
      | [] => None
      end
  end.

Definition json_parse (s : string) : option json :=
  let l := list_ascii_of_string s in
  match pvalue (2 * List.length l + 2) l with
  | Some (v, rest) => match skip_ws rest with [] => Some v | _ => None end
  | None => None
  end.

(** Strings with double quotes inside, built without quote escapes. *)
Definition q (s : string) : string := String DQ (s ++ String DQ EmptyString)%string.

Definition line_a : string := ("{" ++ q "a" ++ ":1}")%string.
Definition line_b : string := ("{" ++ q "b" ++ ":2}")%string.
Definition line_bad : string := "not-json".


(* ------------------------------------------------------------------ *)
(** ** [sendOfflineData]

    The synchronous part: the observable effects of one call, in order.
    [store] is the content of the data store file ([None]: no file). *)

Inductive effect : Type :=
| EExists                 (** [fs.existsSync(dataStoreFile)] *)
| ERead                   (** [fs.readFileSync(dataStoreFile)] *)
| EPost (batch : list json).  (** [softwarePost("/data/batch", payloads, jwt)] *)

Definition sendOfflineData (parse : string -> option json)
    (TELEMETRY_ON : bool) (store : option string) : list effect :=
  if negb TELEMETRY_ON then []
  else EExists ::
    match store with
    | None => []
    | Some content =>
        ERead :: (if String.eqb content "" then []
                  else [EPost (payloads parse content)])
    end.

Fixpoint posts (effs : list effect) : list (list json) :=
  match effs with
  | [] => []
  | EPost b :: r => b :: posts r
  | _ :: r => posts r
  end.

(** What [isResponseOk] and [isUserDeactivated] say of the response. *)
Record response : Type := mkResponse {
  resp_ok : bool;
  resp_deactivated : bool
}.

(** The [.then] callback of the submit: [serverAvailable] is the result of
    the awaited [serverIsAvailable()]; [deleteFile] removes the file. *)
Definition onBatchResponse (resp : response) (serverAvailable : bool)
    (store : option string) : option string :=
  if resp_ok resp || resp_deactivated resp then
    if serverAvailable then None else store
  else store.

(** Modelled from the spec: [LocalRecordStore.append], the writer of the
    store file, whose code is not under src/. "serializes record as one line
    of JSON and appends to the backing file; creates the file if absent". *)
Definition append_record (line : string) (store : option string) : option string :=
  Some (match store with
        | None => line ++ String LF EmptyString
        | Some c => c ++ line ++ String LF EmptyString
        end)%string.

Definition append_all (lines : list string) (store : option string) : option string :=
  fold_left (fun s l => append_record l s) lines store.

(** The flush as the extension runs it: calls, appends and responses
    interleave; [in_flight] counts submits whose callback has not run. *)
Record Sys : Type := mkSys {
  telemetry_on : bool;
  store_file : option string;
  in_flight : nat;
  posted : list (list json)
}.

Inductive event : Type :=
| EvFlush
| EvAppend (line : string)
| EvResponse (resp : response) (serverAvailable : bool).

Definition step (parse : string -> option json) (s : Sys) (e : event) : Sys :=
  match e with
  | EvFlush =>
      let ps := posts (sendOfflineData parse (telemetry_on s) (store_file s)) in
      mkSys (telemetry_on s) (store_file s) (List.length ps + in_flight s)
            (posted s ++ ps)
  | EvAppend l =>
      mkSys (telemetry_on s) (append_record l (store_file s)) (in_flight s) (posted s)
  | EvResponse r up =>
      match in_flight s with
      | O => s
      | S n => mkSys (telemetry_on s) (onBatchResponse r up (store_file s)) n (posted s)
      end
  end.

Definition run (parse : string -> option json) (s : Sys) (es : list event) : Sys :=
  fold_left (step parse) es s.

(* ------------------------------------------------------------------ *)
(** ** [isAuthenticated]

    Result and the backend requests issued; [token] is [getItem("token")],
    [ping_ok] is [isResponseOk] of the [/users/ping] response. *)

Definition isAuthenticated (TELEMETRY_ON : bool) (token : option string)
    (ping_ok : bool) : bool * list string :=
  if negb TELEMETRY_ON then (true, [])
  else match token with
       | Some t => if String.eqb t "" then (false, []) else (ping_ok, ["/users/ping"])
       | None => (false, [])
       end.

(* ------------------------------------------------------------------ *)
(** ** [getUserStatus] and its cache (lib/DataController.ts)

    [connectState] holds the [loggedIn] field of the cached
    [LoggedInState] ([None]: null). [now] is [moment().unix()] and
    [loggedOn] the [loggedOn] field [isLoggedOn] would return. *)

Record LoginCache : Type := mkCache {
  connectState : option bool;
  lastLoggedInCheckTime : option Z
}.

Definition initialCache : LoginCache := mkCache None None.

(** [if (lastLoggedInCheckTime)]: null and 0 are falsy. *)
Definition time_truthy (t : option Z) : option Z :=
  match t with
  | Some x => if Z.eqb x 0 then None else Some x
  | None => None
  end.

Record UserStatus : Type := mkStatus {
  loggedIn : bool;
  remote_checked : bool   (** [isLoggedOn] was called, i.e. the backend asked *)
}.

Definition getUserStatus (serverIsOnline ignoreCache : bool) (now : Z)
    (loggedOn : bool) (c : LoginCache) : LoginCache * UserStatus :=
  let c1 :=
    if negb ignoreCache && match connectState c with Some _ => true | None => false end then
      match time_truthy (lastLoggedInCheckTime c) with
      | Some t =>
          if Z.gtb (now - t) (60 * 5) then mkCache None None else c
      | None => mkCache (connectState c) (Some now)
      end
    else c in
  match (if negb ignoreCache then connectState c1 else None) with
  | Some li => (c1, mkStatus li false)
  | None =>
      let li := serverIsOnline && loggedOn in
      (mkCache (Some li) (lastLoggedInCheckTime c1), mkStatus li serverIsOnline)
  end.

Definition clearCachedLoggedInState (c : LoginCache) : LoginCache :=
  mkCache None (lastLoggedInCheckTime c).

(** The cache bypass condition of a call with [ignoreCache = false]. *)
Definition cache_expired (c : LoginCache) (now : Z) : bool :=
  match time_truthy (lastLoggedInCheckTime c) with
  | Some t => Z.gtb (now - t) (60 * 5)
  | None => false
  end.

(** A sequence of calls on the cache; the statuses of the [getUserStatus]
    calls, in order. *)
Inductive auth_call : Type :=
| Refresh (serverIsOnline ignoreCache : bool) (now : Z) (loggedOn : bool)
| ClearCache.

Fixpoint auth_run (c : LoginCache) (calls : list auth_call) : list UserStatus :=
  match calls with
  | [] => []
  | Refresh on ign now lo :: rest =>
      let '(c', st) := getUserStatus on ign now lo c in st :: auth_run c' rest
  | ClearCache :: rest => auth_run (clearCachedLoggedInState c) rest
  end.

(* ------------------------------------------------------------------ *)
(** ** [refetchUserStatusLazily] and [userStatusFetchHandler]

    [userFetchTimeout] holds the try count of the pending timer;
    [awaiting] the try counts of fired handlers still awaiting
    [serverIsAvailable] and [getUserStatus]. *)

Record LazyState : Type := mkLazy {
  userFetchTimeout : option nat;
  awaiting : list nat
}.

Definition refetchUserStatusLazily (tryCountUntilFoundUser : nat) (st : LazyState)
    : LazyState :=
  match userFetchTimeout st with
  | Some _ => st
  | None => mkLazy (Some tryCountUntilFoundUser) (awaiting st)
  end.

(** The timer callback: [userFetchTimeout = null], then the handler starts. *)
Definition timerFires (st : LazyState) : LazyState :=
  match userFetchTimeout st with
  | None => st
  | Some n => mkLazy None (awaiting st ++ [n])
  end.

Inductive campaign_event : Type :=
| StatusCheck          (** [serverIsAvailable] and [getUserStatus(.., true)] *)
| LoggedOnMessage      (** logged in: cache cleared, tree refreshed *)
| SetCheckStatus.      (** [setItem("check_status", true)] *)

(** The end of the oldest awaiting handler, with the status it got. *)
Definition handlerDone (isLoggedIn : bool) (st : LazyState)
    : LazyState * list campaign_event :=
  match awaiting st with
  | [] => (st, [])
  | n :: rest =>
      let st' := mkLazy (userFetchTimeout st) rest in
      if isLoggedIn then (st', [LoggedOnMessage])
      else match n with
           | O => (st', [SetCheckStatus])
           | S m => (refetchUserStatusLazily m st', [])
           end
  end.

Definition live_campaigns (st : LazyState) : nat :=
  List.length (awaiting st)
  + match userFetchTimeout st with Some _ => 1 | None => 0 end.

Inductive lazy_event : Type :=
| LRefetch (n : nat)
| LFire
| LDone (isLoggedIn : bool).

Definition lazy_step (st : LazyState) (e : lazy_event) : LazyState :=
  match e with
  | LRefetch n => refetchUserStatusLazily n st
  | LFire => timerFires st
  | LDone b => fst (handlerDone b st)
  end.

(** A step with what it does: a firing timer starts a handler, which
    runs the status check ([serverIsAvailable] and [getUserStatus]). *)
Definition lazy_step_out (st : LazyState) (e : lazy_event)
    : LazyState * list campaign_event :=
  match e with
  | LRefetch n => (refetchUserStatusLazily n st, [])
  | LFire =>
      match userFetchTimeout st with
      | Some _ => (timerFires st, [StatusCheck])
      | None => (st, [])
      end
  | LDone b => handlerDone b st
  end.

Fixpoint lazy_run (st : LazyState) (es : list lazy_event)
    : LazyState * list campaign_event :=
  match es with
  | [] => (st, [])
  | e :: r =>
      let '(st1, o1) := lazy_step_out st e in
      let '(st2, o2) := lazy_run st1 r in
      (st2, o1 ++ o2)
  end.

(** One campaign alone, each handler run after the timer of the previous
    one: [loggedInAt k] is the status the [k]-th check gets. *)
Fixpoint userStatusFetchChain (tryCountUntilFoundUser : nat)
    (loggedInAt : nat -> bool) (k : nat) : list campaign_event :=
  StatusCheck ::
    (if loggedInAt k then [LoggedOnMessage]
     else match tryCountUntilFoundUser with
          | O => [SetCheckStatus]
          | S m => userStatusFetchChain m loggedInAt (S k)
          end).

(* ------------------------------------------------------------------ *)
(** ** [onboardInit] in a window without focus

    [retry_counter] is the module counter; [hasJwt k] and [online k] are
    [getItem("jwt")] and [serverIsAvailable()] at the [k]-th call; [fuel]
    bounds the number of calls observed (the chain need not end). *)

Inductive onboard_event : Type :=
| ServerProbe
| CreateAnonymousUser
| OnboardCallback (anonCreated : bool).

Fixpoint onboardSecondary (fuel retry_counter : nat) (hasJwt online : nat -> bool)
    (k : nat) : list onboard_event :=
  match fuel with
  | O => []
  | S f =>
      if hasJwt k then [OnboardCallback false]
      else ServerProbe ::
        (if negb (online k) then onboardSecondary f retry_counter hasJwt online (S k)
         else if Nat.ltb retry_counter 5
              then onboardSecondary f (S retry_counter) hasJwt online (S k)
              else [CreateAnonymousUser; OnboardCallback true])
  end.

(** A string item is truthy when present and non-empty. *)
Definition str_truthy (s : option string) : bool :=
  match s with Some x => negb (String.eqb x "") | None => false end.

(* ------------------------------------------------------------------ *)
(** ** [onboardInit] with both window paths

    The jwt item is shared by the windows: [stored] is its value after this
    window's last call, [written k] is [Some v] when another window wrote
    [v] before the [k]-th call, and [getItem("jwt")] reads [read_jwt].
    [jwt_id s] is [jwt_decode(s.split("JWT")[1])["id"]]: [None] when
    [jwt_decode] throws, [Some None] when there is no numeric id.
    [focused k], [online k] and [created k] are [window.state.focused],
    [serverIsAvailable()] and whether [createAnonymousUser()] returned a
    jwt, at the [k]-th call; [fuel] bounds the calls observed. *)

Definition read_jwt (stored : option string)
    (written : nat -> option (option string)) (k : nat) : option string :=
  match written k with Some v => v | None => stored end.

Definition one_min_millis : Z := 1000 * 60.

Inductive onboard_act : Type :=
| OJwtCleared            (** [setItem("jwt", null)] for an app jwt *)
| OThrow                 (** [jwt_decode] throws out of [onboardInit] *)
| OProbe                 (** [serverIsAvailable()] *)
| OCreate                (** [createAnonymousUser()] *)
| OPrompt                (** [showOfflinePrompt(true)] *)
| OWait (ms : Z)         (** [setTimeout(() => onboardInit(..), ms)] *)
| OCallback (anonCreated : bool).

(** [primaryWindowOnboarding]; [retry rc] is the chain that the
    [setTimeout] starts, [retry_counter] being [rc] by then. *)
Definition primaryWindowOnboarding (retry_counter : nat)
    (serverIsOnline created : bool) (retry : nat -> list onboard_act)
    : list onboard_act :=
  let again :=
    (if Nat.eqb retry_counter 0 then [OPrompt] else [])
    ++ OWait (one_min_millis * 2) :: retry (S retry_counter) in
  OProbe ::
    (if serverIsOnline then OCreate :: (if created then [OCallback true] else again)
     else again).

Definition secondaryWindowOnboarding (retry_counter : nat) (serverIsOnline : bool)
    (retry : nat -> list onboard_act) : list onboard_act :=
  OProbe ::
    (if negb serverIsOnline then OWait one_min_millis :: retry retry_counter
     else if Nat.ltb retry_counter 5 then OWait (1000 * 15) :: retry (S retry_counter)
     else [OCreate; OCallback true]).

Fixpoint onboardInit (fuel retry_counter : nat) (stored : option string)
    (written : nat -> option (option string))
    (jwt_id : string -> option (option Z))
    (focused online created : nat -> bool) (k : nat) : list onboard_act :=
  match fuel with
  | O => []
  | S f =>
      let jwt := read_jwt stored written k in
      let decoded :=
        match jwt with
        | Some s => if str_truthy jwt && focused k then Some (jwt_id s) else None
        | None => None
        end in
      match decoded with
      | Some None => [OThrow]
      | _ =>
          let cleared :=
            match decoded with
            | Some (Some (Some id)) => Z.gtb id 9999999999
            | _ => false
            end in
          let jwt1 := if cleared then None else jwt in
          let retry rc := onboardInit f rc jwt1 written jwt_id focused online created (S k) in
          (if cleared then [OJwtCleared] else [])
          ++ (if str_truthy jwt1 then [OCallback false]
              else if focused k then
                primaryWindowOnboarding retry_counter (online k) (created k) retry
              else secondaryWindowOnboarding retry_counter (online k) retry)
      end
  end.

Definition is_prompt (a : onboard_act) : bool :=
  match a with OPrompt => true | _ => false end.
(** The acts after which the chain stops: the callback, or a throw. *)
Definition is_final (a : onboard_act) : bool :=
  match a with OCallback _ | OThrow => true | _ => false end.

(* ------------------------------------------------------------------ *)
(** ** The timers [activate] registers

    A timeout fires once after its delay; an interval fires at every
    multiple of its period. *)

Inductive activity : Type :=
| StatusBarInit | FetchDailyKpm | GatherMusic | CheckAuthStatus
| SendOfflineData | GetRepoUsers | GetHistoricalCommits.

Definition activity_eqb (a b : activity) : bool :=
  match a, b with
  | StatusBarInit, StatusBarInit | FetchDailyKpm, FetchDailyKpm
  | GatherMusic, GatherMusic | CheckAuthStatus, CheckAuthStatus
  | SendOfflineData, SendOfflineData | GetRepoUsers, GetRepoUsers
  | GetHistoricalCommits, GetHistoricalCommits => true
  | _, _ => false
  end.

Inductive timer : Type :=
| Timeout (ms : Z) (acts : list activity)
| Interval (ms : Z) (acts : list activity).

Definition one_min : Z := 1000 * 60.
Definition hourly_interval : Z := 1000 * 60 * 60.

Definition activate_timers : list timer :=
  [ Timeout 100 [StatusBarInit; FetchDailyKpm];
    Interval one_min [FetchDailyKpm];
    Interval (1000 * 15) [GatherMusic];
    Timeout 5000 [CheckAuthStatus];
    Timeout 10000 [SendOfflineData];
    Interval hourly_interval [GetRepoUsers];
    Timeout one_min [GetRepoUsers];
    Interval (hourly_interval + one_min) [GetHistoricalCommits];
    Timeout (one_min * 2) [GetHistoricalCommits] ].

(** How many times a timer has fired [t] milliseconds after activation. *)
Definition fired (t : Z) (tm : timer) : Z :=
  match tm with
  | Timeout ms _ => if (ms <=? t)%Z then 1 else 0
  | Interval ms _ => t / ms
  end%Z.

Definition timer_acts (tm : timer) : list activity :=
  match tm with Timeout _ acts | Interval _ acts => acts end.

Definition runs_until (t : Z) (a : activity) : Z :=
  fold_right (fun tm acc =>
      (fired t tm * Z.of_nat (List.length (filter (activity_eqb a) (timer_acts tm))) + acc)%Z)
    0%Z activate_timers.

(* ------------------------------------------------------------------ *)
(** ** [isLoggedOn] and the session items it writes *)

(** The items of the session file the login check reads and writes
    ([getItem] / [setItem]); [None] is null. *)
Record Items : Type := mkItems {
  item_jwt : option string;
  item_name : option string;
  item_check_status : option bool
}.

(** [resp.data] of [/users/plugin/state]. *)
Record PluginState : Type := mkPluginState {
  ps_state : option string;
  ps_email : option string;
  ps_jwt : option string
}.

Record StateResp : Type := mkStateResp {
  sr_ok : bool;                      (** [isResponseOk(resp)] *)
  sr_data : option PluginState
}.

Definition opt_str_eqb (a b : option string) : bool :=
  match a, b with
  | Some x, Some y => String.eqb x y
  | None, None => true
  | _, _ => false
  end.

(** Result: new items, [{loggedOn, state}], and whether the backend was
    asked. *)
Definition isLoggedOn (serverIsOnline : bool) (resp : StateResp) (it : Items)
    : Items * (bool * string) * bool :=
  let jwt := item_jwt it in
  if serverIsOnline && str_truthy jwt then
    match sr_data resp with
    | Some d =>
        if sr_ok resp then
          let state := if str_truthy (ps_state d)
                       then match ps_state d with Some s => s | None => "" end
                       else "UNKNOWN" in
          if String.eqb state "OK" then
            let it1 := if negb (opt_str_eqb (item_name it) (ps_email d))
                       then mkItems (item_jwt it) (ps_email d) (item_check_status it)
                       else it in
            let it2 := if str_truthy (ps_jwt d) && negb (opt_str_eqb (ps_jwt d) jwt)
                       then mkItems (ps_jwt d) (item_name it1) (item_check_status it1)
                       else it1 in
            let it3 := match item_check_status it2 with
                       | Some true => mkItems (item_jwt it2) (item_name it2) None
                       | _ => it2
                       end in
            (it3, (true, state), true)
          else (it, (false, state), true)
        else (it, (false, "UNKNOWN"), true)
    | None => (it, (false, "UNKNOWN"), true)
    end
  else (it, (false, "UNKNOWN"), false).

(** [getUserStatus] with its writes to the items and the calls it starts
    when the user is found logged in. *)
Inductive status_side : Type :=
| SendHeartbeatLoggedIn        (** [sendHeartbeat("STATE_CHANGE:LOGGED_IN:true")] *)
| InitializePreferences.

Definition getUserStatusFull (serverIsOnline ignoreCache : bool) (now : Z)
    (resp : StateResp) (c : LoginCache) (it : Items)
    : LoginCache * Items * UserStatus * list status_side :=
  let c1 :=
    if negb ignoreCache && match connectState c with Some _ => true | None => false end then
      match time_truthy (lastLoggedInCheckTime c) with
      | Some t =>
          if Z.gtb (now - t) (60 * 5) then mkCache None None else c
      | None => mkCache (connectState c) (Some now)
      end
    else c in
  match (if negb ignoreCache then connectState c1 else None) with
  | Some li => (c1, it, mkStatus li false, [])
  | None =>
      let '(it1, (lo, _), _) :=
        if serverIsOnline then isLoggedOn serverIsOnline resp it
        else (it, (false, "UNKNOWN"), false) in
      let li := lo in
      let it2 := if negb li && str_truthy (item_name it1)
                 then mkItems (item_jwt it1) None (item_check_status it1)
                 else it1 in
      (mkCache (Some li) (lastLoggedInCheckTime c1), it2,
       mkStatus li serverIsOnline,
       if serverIsOnline && li then [SendHeartbeatLoggedIn; InitializePreferences] else [])
  end.

(** [getCachedLoggedInState]: the cached state, or a forced check. The
    last component says whether [serverIsAvailable] was called. *)
Definition getCachedLoggedInState (serverIsOnline : bool) (now : Z)
    (loggedOn : bool) (c : LoginCache) : LoginCache * option bool * bool :=
  match connectState c with
  | Some b => (c, Some b, false)
  | None =>
      let c' := fst (getUserStatus serverIsOnline true now loggedOn c) in
      (c', connectState c', true)
  end.

(* ------------------------------------------------------------------ *)
(** ** [writeCommitSummaryData]

    [result]: [None] when the request failed ([.catch] gives null), else
    [isResponseOk] and [result.data]; [file] is the summary file. *)

Definition commit_summary_placeholder : string := "WEEKLY COMMIT SUMMARY".

Definition writeCommitSummaryData (serverIsOnline : bool)
    (result : option (bool * string)) (file : option string) : option string :=
  let f1 :=
    if serverIsOnline then
      match result with
      | Some (ok, data) => if ok && negb (String.eqb data "") then Some data else file
      | None => file
      end
    else file in
  match f1 with
  | Some _ => f1
  | None => Some commit_summary_placeholder
  end.

(* ------------------------------------------------------------------ *)
(** ** [getUser], [initializePreferences], [sendPreferencesUpdate] and
    [updatePreferences]

    A user preferences object; [None] stands for null or undefined. *)
Record Prefs : Type := mkPrefs {
  sessionThresholdInSec : option Z;
  showGit : option bool;
  showRank : option bool
}.

Record User : Type := mkUser {
  user_id : Z;
  user_registered : Z;
  user_email : option string;
  user_preferences : option Prefs
}.

(** [getUser]: [resp_ok] is [isResponseOk(resp)], [data] is
    [resp.data.data]. A registered user's email is stored as the name and
    the cached state is set to logged in, its time stamp untouched. *)
Definition getUser (serverIsOnline : bool) (jwt : option string)
    (resp_ok : bool) (data : option User) (it : Items) (c : LoginCache)
    : option User * Items * LoginCache :=
  if str_truthy jwt && serverIsOnline then
    if resp_ok then
      match data with
      | Some u =>
          if Z.eqb (user_registered u) 1 then
            (Some u, mkItems (item_jwt it) (user_email u) (item_check_status it),
             mkCache (Some true) (lastLoggedInCheckTime c))
          else (Some u, it, c)
      | None => (None, it, c)
      end
    else (None, it, c)
  else (None, it, c).

(** The cache and items side of [userStatusFetchHandler]: a forced
    [getUserStatus]; when it finds the user logged in, it has started
    [initializePreferences] without awaiting it, and the handler then runs
    [clearCachedLoggedInState]. That [initializePreferences] waits, in
    [getUser], for the [/users/me] answer, a network reply that comes after
    the handler resumed: [getUser] writes to the cache after the clear.
    [user_ok] and [data] are that answer, as for [getUser]. *)
Definition userStatusFetchHandlerCache (serverIsOnline : bool) (now : Z)
    (resp : StateResp) (user_ok : bool) (data : option User)
    (c : LoginCache) (it : Items) : LoginCache * Items * bool :=
  let '(c1, it1, st, _) := getUserStatusFull serverIsOnline true now resp c it in
  if loggedIn st then
    let c2 := clearCachedLoggedInState c1 in
    let '(_, it3, c3) := getUser serverIsOnline (item_jwt it1) user_ok data it1 c2 in
    (c3, it3, true)
  else (c1, it1, false).

(** The [showGitMetrics] setting as [workspace.getConfiguration().get]
    returns it: [None] when it is undefined, which is the case when no
    extension manifest registers it (the manifest is not part of [src/]).
    Both functions below read it again where the source does; it is taken
    unchanged between the reads. *)

(** The body of the [PUT]: the server's preferences object, its [showGit]
    overwritten with the setting; an undefined value is left out by
    [JSON.stringify], as a missing field. *)
Definition sendPreferencesUpdate (showGitMetrics : option bool) (userPrefs : Prefs) : Prefs :=
  mkPrefs (sessionThresholdInSec userPrefs) showGitMetrics (showRank userPrefs).

(** [initializePreferences]: the [sessionThresholdInSec] stored ([None]
    when the function stops before storing it), the [showGitMetrics]
    setting afterwards, the [PUT] body if one is sent, and the items and
    cache as [getUser] leaves them. [update_ok] says whether the awaited
    [update("showGitMetrics", ...)] resolves; when it rejects (as it does
    for a setting no manifest registers) the setting is unchanged and the
    rejection skips the final [setItem]. *)
Definition initializePreferences (DEFAULT_SESSION_THRESHOLD_SECONDS : Z)
    (serverIsOnline resp_ok : bool) (data : option User)
    (showGitMetrics : option bool) (update_ok : bool) (it : Items) (c : LoginCache)
    : option Z * option bool * option Prefs * Items * LoginCache :=
  let jwt := item_jwt it in
  if str_truthy jwt && serverIsOnline then
    let '(user, it1, c1) := getUser serverIsOnline jwt resp_ok data it c in
    match user with
    | Some u =>
        match user_preferences u with
        | Some prefs =>
            let th := match sessionThresholdInSec prefs with
                      | Some t => if Z.eqb t 0 then DEFAULT_SESSION_THRESHOLD_SECONDS else t
                      | None => DEFAULT_SESSION_THRESHOLD_SECONDS
                      end in
            match showGit prefs, showRank prefs with
            | Some g, Some _ =>
                if update_ok then (Some th, Some g, None, it1, c1)
                else (None, showGitMetrics, None, it1, c1)
            | _, _ => (Some th, showGitMetrics,
                       Some (sendPreferencesUpdate showGitMetrics prefs), it1, c1)
            end
        | None => (Some DEFAULT_SESSION_THRESHOLD_SECONDS, showGitMetrics, None, it1, c1)
        end
    | None => (Some DEFAULT_SESSION_THRESHOLD_SECONDS, showGitMetrics, None, it1, c1)
    end
  else (Some DEFAULT_SESSION_THRESHOLD_SECONDS, showGitMetrics, None, it, c).

(** [updatePreferences] once [serverIsAvailable] answered: [resp2_ok] and
    [prefs2] are the [GET /users/:id] answer and its
    [resp.data.data.preferences]. The [PUT] body if one is sent:
    [prefsShowGit !== showGitMetrics] holds when the setting is
    undefined. *)
Definition updatePreferences (serverIsOnline resp_ok : bool) (data : option User)
    (resp2_ok : bool) (prefs2 : option Prefs) (showGitMetrics : option bool)
    (it : Items) (c : LoginCache) : option Prefs * Items * LoginCache :=
  let jwt := item_jwt it in
  if str_truthy jwt && serverIsOnline then
    let '(user, it1, c1) := getUser serverIsOnline jwt resp_ok data it c in
    match user with
    | None => (None, it1, c1)
    | Some _ =>
        if resp2_ok then
          match prefs2 with
          | Some prefs =>
              if match showGit prefs, showGitMetrics with
                 | None, _ => true
                 | Some g, Some m => negb (Bool.eqb g m)
                 | Some _, None => true
                 end
              then (Some (sendPreferencesUpdate showGitMetrics prefs), it1, c1)
              else (None, it1, c1)
          | None => (None, it1, c1)
          end
        else (None, it1, c1)
    end
  else (None, it, c).

(* ------------------------------------------------------------------ *)
(** ** Auxiliary definitions for the statements *)

(** One campaign with no other [refetchUserStatusLazily] call: its timer
    fires, then its handler ends with the status [loggedInAt k], [m] times. *)
Fixpoint alone_schedule (loggedInAt : nat -> bool) (k m : nat) : list lazy_event :=
  match m with
  | O => []
  | S m' => LFire :: LDone (loggedInAt k) :: alone_schedule loggedInAt (S k) m'
  end.

Definition campaign_alone (n : nat) (loggedInAt : nat -> bool) (m : nat)
    : list campaign_event :=
  snd (lazy_run (mkLazy None []) (LRefetch n :: alone_schedule loggedInAt 0 m)).

(** [getUser] finds a registered user: its request is made and answered
    with [registered === 1]. *)
Definition user_registered_answer (serverIsOnline user_ok : bool)
    (jwt : option string) (data : option User) : bool :=
  str_truthy jwt && serverIsOnline && user_ok
  && match data with Some u => Z.eqb (user_registered u) 1 | None => false end.

(** The server's user after its preferences were replaced. *)
Definition set_preferences (u : User) (p : Prefs) : User :=
  mkUser (user_id u) (user_registered u) (user_email u) (Some p).

(** A line with no [\n] and no [\r], as [JSON.stringify] writes one. *)
Definition clean_line (l : string) : bool :=
  forallb (fun c => negb (Ascii.eqb c LF) && negb (Ascii.eqb c CR))
          (list_ascii_of_string l).

(** Lines, each terminated by [\n]. *)
Fixpoint terminated_lines (ls : list string) : string :=
  match ls with
  | [] => EmptyString
  | l :: r => (l ++ String LF (terminated_lines r))%string
  end.

Definition count_ev {A : Type} (p : A -> bool) (l : list A) : nat :=
  List.length (filter p l).

Definition is_check (e : campaign_event) : bool :=
  match e with StatusCheck => true | _ => false end.
Definition is_exhausted (e : campaign_event) : bool :=
  match e with SetCheckStatus => true | _ => false end.
Definition is_create (e : onboard_event) : bool :=
  match e with CreateAnonymousUser => true | _ => false end.
Definition is_probe (e : onboard_event) : bool :=
  match e with ServerProbe => true | _ => false end.

Definition obj_a : json := JObj [("a", JNum 1%Z)].
Definition obj_b : json := JObj [("b", JNum 2%Z)].

(** The store file of the malformed-line example. *)
Definition store3 : string :=
  (line_a ++ String LF (line_bad ++ String LF line_b))%string.

(** The same file written with Windows line ends. *)
Definition store3_crlf : string :=
  (line_a ++ String CR (String LF (line_bad ++ String CR (String LF line_b))))%string.

(** No [\n] in a string. *)
Definition no_lf (l : string) : bool :=
  forallb (fun c => negb (Ascii.eqb c LF)) (list_ascii_of_string l).

Fixpoint ends_cr (l : string) : bool :=
  match l with
  | EmptyString => false
  | String c EmptyString => Ascii.eqb c CR
  | String _ r => ends_cr r
  end.

(** A line and its terminator, ["\r\n"] when [crlf], else ["\n"]. The
    line holds no [\n], and, before a bare ["\n"], does not end in [\r]
    (that [\r] would belong to the separator). *)
Definition line_ok (lc : string * bool) : bool :=
  let '(l, crlf) := lc in no_lf l && (crlf || negb (ends_cr l)).

Definition line_sep (crlf : bool) : string :=
  if crlf then String CR (String LF EmptyString) else String LF EmptyString.

Fixpoint terminated_sep (ls : list (string * bool)) : string :=
  match ls with
  | [] => EmptyString
  | (l, crlf) :: r => (l ++ line_sep crlf ++ terminated_sep r)%string
  end.

(** Two records and their one-line encodings, for concrete runs. *)
Definition rec_line (r : bool) : string := if r then line_a else line_b.
Definition rec_json (r : bool) : json := if r then obj_a else obj_b.

(* ------------------------------------------------------------------ *)
(** ** Lemmas on splitting and appending *)

Example json_parse_a : json_parse line_a = Some (JObj [("a", JNum 1%Z)]).
Proof. vm_compute. reflexivity. Qed.
Example json_parse_bad : json_parse line_bad = None.
Proof. vm_compute. reflexivity. Qed.
Example json_parse_nested :
  json_parse ("[1, {" ++ q "x" ++ ": [true, null]}, -3]")%string
  = Some (JArr [JNum 1; JObj [("x", JArr [JBool true; JNull])]; JNum (-3)]).
Proof. vm_compute. reflexivity. Qed.


Lemma str_app_assoc (a b c : string) :
  (a ++ (b ++ c) = (a ++ b) ++ c)%string.
Proof. induction a as [|x a IH]; simpl; [reflexivity | now rewrite IH]. Qed.

Lemma str_app_nil_r (a : string) : (a ++ EmptyString)%string = a.
Proof. induction a as [|x a IH]; simpl; [reflexivity | now rewrite IH]. Qed.

Lemma split_clean_line (l rest : string) :
  clean_line l = true ->
  split_crlf (l ++ String LF rest)%string = l :: split_crlf rest.
Proof.
  induction l as [|c l IH]; intros Hc.
  - reflexivity.
  - unfold clean_line in Hc; simpl in Hc.
    apply andb_true_iff in Hc as [Hc Hl].
    apply andb_true_iff in Hc as [HLF HCR].
    apply negb_true_iff in HLF, HCR.
    simpl. rewrite HLF, HCR. rewrite (IH Hl). reflexivity.
Qed.

Lemma split_terminated (ls : list string) (rest : string) :
  forallb clean_line ls = true ->
  split_crlf (terminated_lines ls ++ rest)%string = ls ++ split_crlf rest.
Proof.
  induction ls as [|l ls IH]; intros H; simpl in *.
  - reflexivity.
  - apply andb_true_iff in H as [Hl Hls].
    rewrite <- str_app_assoc. simpl.
    rewrite split_clean_line by exact Hl. now rewrite IH.
Qed.

Lemma keep_some_app (a b : list (option json)) :
  keep_some (a ++ b) = keep_some a ++ keep_some b.
Proof.
  induction a as [|[v|] a IH]; simpl; [reflexivity | now rewrite IH | exact IH].
Qed.

Lemma payloads_terminated (parse : string -> option json) (ls : list string)
    (rest : string) :
  forallb clean_line ls = true ->
  payloads parse (terminated_lines ls ++ rest)%string
  = keep_some (map (parse_item parse) ls) ++ payloads parse rest.
Proof.
  intros H. unfold payloads. rewrite split_terminated by exact H.
  now rewrite map_app, keep_some_app.
Qed.

Lemma split_no_lf (rest : string) :
  no_lf rest = true -> split_crlf rest = [rest].
Proof.
  induction rest as [|c r IH]; intros H; [reflexivity|].
  unfold no_lf in H. simpl in H. apply andb_true_iff in H as [Hc Hr].
  apply negb_true_iff in Hc. simpl. rewrite Hc.
  specialize (IH Hr).
  destruct (Ascii.eqb c CR).
  - destruct r as [|c' r']; [reflexivity|].
    unfold no_lf in Hr. simpl in Hr. apply andb_true_iff in Hr as [Hc' _].
    apply negb_true_iff in Hc'. rewrite Hc', IH. reflexivity.
  - rewrite IH. reflexivity.
Qed.

Lemma split_sep_line (l : string) (crlf : bool) (rest : string) :
  line_ok (l, crlf) = true ->
  split_crlf (l ++ line_sep crlf ++ rest)%string = l :: split_crlf rest.
Proof.
  induction l as [|c l IH]; intros H.
  - destruct crlf; reflexivity.
  - simpl in H. apply andb_true_iff in H as [Hn He].
    unfold no_lf in Hn. simpl in Hn. apply andb_true_iff in Hn as [Hc Hl].
    apply negb_true_iff in Hc.
    assert (IH' : line_ok (l, crlf) = true).
    { assert (Hl' : no_lf l = true) by exact Hl. simpl. rewrite Hl'. simpl.
      destruct l as [|c' l']; [destruct crlf; reflexivity|]. exact He. }
    specialize (IH IH').
    simpl. rewrite Hc.
    destruct (Ascii.eqb c CR) eqn:Ecr.
    + destruct l as [|c' l'].
      * destruct crlf; [simpl; reflexivity|].
        simpl in He. discriminate He.
      * unfold no_lf in Hl. simpl in Hl. apply andb_true_iff in Hl as [Hc' _].
        apply negb_true_iff in Hc'.
        change (String c' l' ++ line_sep crlf ++ rest)%string
          with (String c' (l' ++ line_sep crlf ++ rest))%string in IH |- *.
        cbv beta iota. rewrite Hc', IH. reflexivity.
    + rewrite IH. reflexivity.
Qed.

Lemma payloads_sep (parse : string -> option json) (ls : list (string * bool))
    (rest : string) :
  forallb line_ok ls = true ->
  payloads parse (terminated_sep ls ++ rest)%string
  = keep_some (map (parse_item parse) (map fst ls)) ++ payloads parse rest.
Proof.
  intros H. unfold payloads.
  assert (Hs : split_crlf (terminated_sep ls ++ rest)%string
               = map fst ls ++ split_crlf rest).
  { induction ls as [|[l crlf] ls IHl]; [reflexivity|].
    simpl in H |- *. apply andb_true_iff in H as [Hl Hls].
    rewrite <- !str_app_assoc. rewrite split_sep_line by exact Hl.
    rewrite IHl by exact Hls. reflexivity. }
  rewrite Hs, map_app, keep_some_app. reflexivity.
Qed.

Lemma no_lf_cons (c : ascii) (l : string) :
  no_lf (String c l) = negb (Ascii.eqb c LF) && no_lf l.
Proof. reflexivity. Qed.

(** Every string is a list of terminated lines followed by a last segment
    with no [\n]. *)
Lemma decompose_store (s : string) :
  exists ls rest, forallb line_ok ls = true /\ no_lf rest = true
                  /\ s = (terminated_sep ls ++ rest)%string.
Proof.
  remember (String.length s) as n eqn:En.
  assert (Hn : String.length s <= n) by lia. clear En.
  revert s Hn. induction n as [|n IH]; intros s Hn.
  { destruct s; simpl in Hn; [|lia]. exists [], EmptyString. auto. }
  destruct s as [|c r].
  { exists [], EmptyString. auto. }
  simpl in Hn.
  destruct (IH r ltac:(lia)) as [ls [rest [Hls [Hrest Er]]]].
  destruct (Ascii.eqb c LF) eqn:Elf.
  { apply Ascii.eqb_eq in Elf. subst c.
    exists ((EmptyString, false) :: ls), rest. simpl. rewrite Hls, Hrest, Er.
    auto. }
  destruct ls as [|[l b] ls'].
  - (* no line end in [r] *)
    exists [], (String c r). split; [reflexivity|]. split; [|reflexivity].
    rewrite no_lf_cons, Elf. rewrite Er. exact Hrest.
  - change (forallb line_ok ((l, b) :: ls')) with (line_ok (l, b) && forallb line_ok ls') in Hls.
    apply andb_true_iff in Hls as [Hl Hls'].
    cbn [terminated_sep] in Er. rewrite <- !str_app_assoc in Er.
    destruct (Ascii.eqb c CR) eqn:Ecr.
    + apply Ascii.eqb_eq in Ecr. subst c.
      destruct l as [|c' l'].
      * destruct b.
        -- (* [r] starts with "\r\n": this [\r] is a line of its own *)
           exists ((String CR EmptyString, true) :: ls'), rest.
           split; [exact Hls'|]. split; [exact Hrest|]. rewrite Er. cbn [terminated_sep]. rewrite <- !str_app_assoc. reflexivity.
        -- (* [r] starts with "\n": this [\r] and it make a "\r\n" *)
           exists ((EmptyString, true) :: ls'), rest.
           split; [exact Hls'|]. split; [exact Hrest|]. rewrite Er. cbn [terminated_sep]. rewrite <- !str_app_assoc. reflexivity.
      * exists ((String CR (String c' l'), b) :: ls'), rest.
        split; [|split; [exact Hrest|]].
        -- change (line_ok (String CR (String c' l'), b) && forallb line_ok ls' = true).
           rewrite Hls', andb_true_r.
           change (no_lf (String CR (String c' l')) && (b || negb (ends_cr (String c' l'))) = true).
           rewrite no_lf_cons. exact Hl.
        -- rewrite Er. cbn [terminated_sep]. rewrite <- !str_app_assoc. reflexivity.
    + exists ((String c l, b) :: ls'), rest.
      split; [|split; [exact Hrest|]].
      * change (line_ok (String c l, b) && forallb line_ok ls' = true).
        rewrite Hls', andb_true_r.
        change (no_lf l && (b || negb (ends_cr l)) = true) in Hl.
        apply andb_true_iff in Hl as [Hl1 Hl2].
        change (no_lf (String c l) && (b || negb (ends_cr (String c l))) = true).
        rewrite no_lf_cons, Elf, Hl1. simpl.
        destruct l as [|c' l']; [|exact Hl2].
        simpl. rewrite Ecr. destruct b; reflexivity.
      * rewrite Er. cbn [terminated_sep]. rewrite <- !str_app_assoc. reflexivity.
Qed.

Lemma terminated_lines_app (a b : list string) :
  terminated_lines (a ++ b) = (terminated_lines a ++ terminated_lines b)%string.
Proof.
  induction a as [|l a IH]; simpl; [reflexivity|].
  rewrite IH, <- str_app_assoc. reflexivity.
Qed.

Lemma append_all_some (ls : list string) (c : string) :
  append_all ls (Some c) = Some (c ++ terminated_lines ls)%string.
Proof.
  revert c. induction ls as [|l ls IH]; intros c; simpl.
  - now rewrite str_app_nil_r.
  - change (append_all ls (append_record l (Some c)) = Some (c ++ (l ++ String LF (terminated_lines ls)))%string).
    replace (append_record l (Some c))
      with (Some (c ++ (l ++ String LF EmptyString))%string) by reflexivity.
    rewrite IH. rewrite <- !str_app_assoc. reflexivity.
Qed.

Lemma append_all_none (ls : list string) :
  ls <> [] -> append_all ls None = Some (terminated_lines ls).
Proof.
  destruct ls as [|l ls]; intros H; [congruence|].
  change (append_all ls (append_record l None) = Some (terminated_lines (l :: ls))).
  replace (append_record l None) with (Some (l ++ String LF EmptyString))%string
    by reflexivity.
  rewrite append_all_some, <- str_app_assoc. reflexivity.
Qed.

Lemma run_appends (parse : string -> option json) (s : Sys) (ls : list string) :
  run parse s (map EvAppend ls)
  = mkSys (telemetry_on s) (append_all ls (store_file s)) (in_flight s) (posted s).
Proof.
  revert s. induction ls as [|l ls IH]; intros s; simpl.
  - now destruct s.
  - unfold run in *. simpl. rewrite IH. reflexivity.
Qed.

Lemma run_app (parse : string -> option json) (s : Sys) (a b : list event) :
  run parse s (a ++ b) = run parse (run parse s a) b.
Proof. unfold run. now rewrite fold_left_app. Qed.

(* ------------------------------------------------------------------ *)
(** ** The offline flush *)

(** C1: when the submit response is a success or an account-deactivated
    response, the store file is deleted exactly when the connectivity
    re-check succeeds; when the re-check fails the file is left as it was,
    and the next flush issues the same submit again. *)
Theorem flush_clears_only_after_recheck
    (parse : string -> option json) (tel : bool) (store : option string)
    (resp : response) (serverAvailable : bool)
    (Hresp : resp_ok resp || resp_deactivated resp = true) :
  onBatchResponse resp serverAvailable store
    = (if serverAvailable then None else store)
  /\ (serverAvailable = false ->
      sendOfflineData parse tel (onBatchResponse resp serverAvailable store)
      = sendOfflineData parse tel store).
Proof.
  unfold onBatchResponse. rewrite Hresp.
  split; [reflexivity | intros ->; reflexivity].
Qed.

(** C2: records appended to an absent store and then flushed with a
    successful submit and a successful re-check: the one submit carries
    exactly the appended records, in order, and the store file is gone.
    [serialize] stands for [JSON.stringify], which writes one line with no
    raw line break, read back by [parse]; the records are objects, hence
    truthy. *)
Theorem flush_submits_each_record_once
    (parse : string -> option json) (Rec : Type)
    (serialize : Rec -> string) (to_json : Rec -> json)
    (Hrt : forall r, parse (serialize r) = Some (to_json r))
    (Hline : forall r, clean_line (serialize r) = true)
    (Hne : forall r, serialize r <> EmptyString)
    (Hobj : forall r, truthy (to_json r) = true)
    (rs : list Rec) (Hrs : rs <> [])
    (resp : response) (Hok : resp_ok resp = true) :
  let s := run parse (mkSys true None 0 [])
             (map EvAppend (map serialize rs)
              ++ [EvFlush; EvResponse resp true]) in
  posted s = [map to_json rs] /\ store_file s = None.
Proof.
  cbv zeta. rewrite run_app, run_appends. simpl store_file.
  assert (Hls : map serialize rs <> []) by (destruct rs; simpl; congruence).
  rewrite (append_all_none _ Hls).
  assert (Hcl : forallb clean_line (map serialize rs) = true).
  { apply forallb_forall. intros l Hin. apply in_map_iff in Hin as [r [<- _]].
    apply Hline. }
  assert (Hpay : payloads parse (terminated_lines (map serialize rs))
                 = map to_json rs).
  { rewrite <- (str_app_nil_r (terminated_lines _)).
    rewrite payloads_terminated by exact Hcl.
    unfold payloads. simpl. rewrite app_nil_r.
    clear Hls Hcl. induction rs as [|r rs IH]; [reflexivity|].
    simpl. unfold parse_item at 1.
    destruct (String.eqb (serialize r) "") eqn:E.
    - apply String.eqb_eq in E. exfalso. exact (Hne r E).
    - rewrite Hrt, Hobj. destruct rs as [|r' rs']; [reflexivity|].
      rewrite IH by discriminate. reflexivity. }
  assert (Hnonempty : String.eqb (terminated_lines (map serialize rs)) "" = false).
  { destruct rs as [|r rs]; [congruence|]. simpl.
    destruct (serialize r); reflexivity. }
  unfold run. simpl. rewrite Hnonempty. simpl. rewrite Hpay.
  unfold onBatchResponse. simpl. rewrite Hok. simpl. split; reflexivity.
Qed.

(** C4: lines of the store file are parsed independently. Whatever its
    line ends (["\n"] or ["\r\n"], mixed), a store file is a list of
    terminated lines followed by a last segment, and the batch is that of
    the lines and the segment, each kept when it parses to a truthy value
    and dropped otherwise, in file order; the batch of lines followed by
    any rest is the batch of the lines followed by that of the rest, so a
    malformed line never stops the lines after it. On the file [{"a":1}],
    [not-json], [{"b":2}], with either line end, the batch is exactly
    [[{"a":1}, {"b":2}]]. *)
Theorem store_lines_parsed_independently :
  (forall (parse : string -> option json) (ls : list (string * bool)) (rest : string),
     forallb line_ok ls = true ->
     payloads parse (terminated_sep ls ++ rest)%string
     = keep_some (map (parse_item parse) (map fst ls)) ++ payloads parse rest)
  /\ (forall (parse : string -> option json) (content : string),
        exists ls rest,
          forallb line_ok ls = true /\ no_lf rest = true
          /\ content = (terminated_sep ls ++ rest)%string
          /\ payloads parse content
             = keep_some (map (parse_item parse) (map fst ls ++ [rest])))
  /\ (forall (parse : string -> option json) (l : string),
        parse l = None -> parse_item parse l = None)
  /\ payloads json_parse store3 = [obj_a; obj_b]
  /\ payloads json_parse store3_crlf = [obj_a; obj_b].
Proof.
  split; [exact payloads_sep|].
  split.
  { intros parse content.
    destruct (decompose_store content) as [ls [rest [Hls [Hr E]]]].
    exists ls, rest. split; [exact Hls|]. split; [exact Hr|]. split; [exact E|].
    rewrite E, payloads_sep by exact Hls.
    unfold payloads. rewrite split_no_lf by exact Hr.
    rewrite map_app, keep_some_app. reflexivity. }
  split.
  - intros parse l H. unfold parse_item. rewrite H.
    destruct (String.eqb l ""); reflexivity.
  - split; vm_compute; reflexivity.
Qed.

(** C3 (amended): [sendOfflineData] has no in-flight guard: with telemetry
    on and a non-empty store file, a call submits the parsed file whatever
    the number of submits still awaiting their response. *)
Theorem flush_has_no_inflight_guard
    (parse : string -> option json) (s : Sys) (content : string)
    (Htel : telemetry_on s = true) (Hstore : store_file s = Some content)
    (Hne : content <> EmptyString) :
  posted (step parse s EvFlush) = posted s ++ [payloads parse content]
  /\ in_flight (step parse s EvFlush) = S (in_flight s)
  /\ store_file (step parse s EvFlush) = store_file s.
Proof.
  unfold step, sendOfflineData. rewrite Htel, Hstore. simpl.
  destruct (String.eqb content "") eqn:E.
  - apply String.eqb_eq in E. contradiction.
  - simpl. repeat split; reflexivity.
Qed.

(** C3: two flushes before any response submit the same record twice. *)
Lemma flush_twice_submits_twice :
  let s0 := mkSys true (Some (line_a ++ String LF EmptyString))%string 0 [] in
  let s1 := step json_parse s0 EvFlush in
  in_flight s1 = 1
  /\ posted (step json_parse s1 EvFlush) = [[obj_a]; [obj_a]].
Proof. vm_compute. split; reflexivity. Qed.

(** C9 (amended): a flush issues no network call exactly when telemetry is
    off, the store file is absent or its content is empty; a non-empty file
    is submitted even when none of its lines parses, as an empty batch. *)
Theorem flush_posts_iff_nonempty_content
    (parse : string -> option json) (tel : bool) (store : option string) :
  (posts (sendOfflineData parse tel store) = []
   <-> tel = false \/ store = None \/ store = Some EmptyString)
  /\ (forall content, tel = true -> store = Some content ->
        content <> EmptyString ->
        posts (sendOfflineData parse tel store) = [payloads parse content]).
Proof.
  split.
  - unfold sendOfflineData. destruct tel; simpl.
    + destruct store as [c|]; simpl.
      * destruct (String.eqb c "") eqn:E; simpl.
        -- apply String.eqb_eq in E. subst. split; auto.
        -- split; [discriminate|].
           intros [H|[H|H]]; try discriminate.
           inversion H; subst. discriminate.
      * split; auto.
    + split; auto.
  - intros content -> -> Hne. unfold sendOfflineData. simpl.
    destruct (String.eqb content "") eqn:E.
    + apply String.eqb_eq in E. contradiction.
    + reflexivity.
Qed.

(** C9: a store file whose only line does not parse gives an empty batch,
    and it is submitted. *)
Lemma flush_posts_empty_batch :
  payloads json_parse line_bad = []
  /\ posts (sendOfflineData json_parse true (Some line_bad)) = [[]].
Proof. vm_compute. split; reflexivity. Qed.

(** C10: with telemetry paused, [sendOfflineData] has no effect at all (no
    file access, no submit, store and pending submits unchanged) and
    [isAuthenticated] answers [true] with no backend request, whatever the
    stored token. *)
Theorem paused_telemetry_is_inert
    (parse : string -> option json) (store : option string) (n : nat)
    (p : list (list json)) (token : option string) (ping_ok : bool) :
  sendOfflineData parse false store = []
  /\ step parse (mkSys false store n p) EvFlush = mkSys false store n p
  /\ isAuthenticated false token ping_ok = (true, []).
Proof.
  split; [reflexivity|]. split; [|reflexivity].
  simpl. now rewrite app_nil_r.
Qed.

(* ------------------------------------------------------------------ *)
(** ** The login-state cache *)

Definition T0 : Z := 1700000000%Z.

(** C5: from a fresh process, a check at [T0], a cached read at [T0+10]
    (which stamps the check time), a [clear()], then two [refresh(false)]
    calls one second apart: both ask the backend, because neither the
    clear nor the remote check renews the stamp. *)
Theorem refresh_pair_checks_twice :
  auth_run initialCache
    [Refresh true false T0 true; Refresh true false (T0 + 10) true;
     ClearCache;
     Refresh true false (T0 + 400) true; Refresh true false (T0 + 401) true]
  = [mkStatus true true; mkStatus true false; mkStatus true true;
     mkStatus true true].
Proof. vm_compute. reflexivity. Qed.

(** C6 (amended): a call made while the backend is unreachable asks no
    backend; unless it is served a cached logged-in state it returns
    [loggedIn = false]; either way the returned state is cached, and the
    next [getUserStatus(false)] call returns it again without a remote
    check unless the stored check time is more than 5 minutes old. *)
Theorem offline_status_is_cached
    (c : LoginCache) (ign : bool) (t : Z) (lo : bool) :
  let r := getUserStatus false ign t lo c in
  remote_checked (snd r) = false
  /\ connectState (fst r) = Some (loggedIn (snd r))
  /\ (loggedIn (snd r) = false \/ (ign = false /\ connectState c = Some true))
  /\ (forall on' t' lo', cache_expired (fst r) t' = false ->
        snd (getUserStatus on' false t' lo' (fst r))
        = mkStatus (loggedIn (snd r)) false).
Proof.
  unfold getUserStatus. cbv zeta.
  destruct ign; simpl.
  - (* ignoreCache: the check path *)
    refine (conj eq_refl (conj eq_refl (conj (or_introl eq_refl) _))).
    intros on' t' lo' Hexp. unfold cache_expired in Hexp. simpl in *.
    destruct (time_truthy (lastLoggedInCheckTime c)) as [x|].
    + rewrite Hexp. reflexivity.
    + reflexivity.
  - destruct (connectState c) as [b|] eqn:Hc; simpl.
    + destruct (time_truthy (lastLoggedInCheckTime c)) as [x|] eqn:Ht; simpl.
      * destruct (Z.gtb (t - x) 300) eqn:Hg; simpl.
        -- refine (conj eq_refl (conj eq_refl (conj (or_introl eq_refl) _))).
           intros on' t' lo' _. reflexivity.
        -- rewrite Hc. simpl. split; [reflexivity|]. split; [exact Hc|]. split.
           ++ destruct b; [right; auto | left; reflexivity].
           ++ intros on' t' lo' Hexp. unfold cache_expired in Hexp.
              rewrite Ht in Hexp. simpl in Hexp. rewrite Hc, Ht, Hexp. simpl.
              rewrite Hc. reflexivity.
      * split; [reflexivity|]. split; [reflexivity|]. split.
        -- destruct b; [right; auto | left; reflexivity].
        -- intros on' t' lo' Hexp. unfold cache_expired in Hexp. simpl in *.
           destruct (Z.eqb t 0); simpl; [reflexivity|].
           rewrite Hexp. reflexivity.
    + rewrite Hc. simpl.
      refine (conj eq_refl (conj eq_refl (conj (or_introl eq_refl) _))).
      intros on' t' lo' Hexp. unfold cache_expired in Hexp. simpl in *.
      destruct (time_truthy (lastLoggedInCheckTime c)) as [x|].
      * rewrite Hexp. reflexivity.
      * reflexivity.
Qed.

(** C6: offline at [T0], then online one second later with the user logged
    on: the second call gets the cached [loggedIn = false] and asks nothing. *)
Lemma offline_then_online_not_rechecked :
  auth_run initialCache
    [Refresh false false T0 true; Refresh true false (T0 + 1) true]
  = [mkStatus false false; mkStatus false false].
Proof. vm_compute. reflexivity. Qed.

(* ------------------------------------------------------------------ *)
(** ** Retry campaigns *)

Lemma chain_counts (n : nat) (f : nat -> bool) (k : nat) :
  count_ev is_check (userStatusFetchChain n f k) <= S n
  /\ count_ev is_exhausted (userStatusFetchChain n f k) <= 1.
Proof.
  revert k. induction n as [|m IH]; intros k; unfold count_ev in *; simpl.
  - destruct (f k); simpl; lia.
  - destruct (f k); simpl; [lia|].
    destruct (IH (S k)) as [H1 H2]. lia.
Qed.

Lemma chain_all_fail (n : nat) (f : nat -> bool) (k : nat) :
  (forall j, f j = false) ->
  userStatusFetchChain n f k = repeat StatusCheck (S n) ++ [SetCheckStatus].
Proof.
  intros Hf. revert k. induction n as [|m IH]; intros k; simpl; rewrite Hf.
  - reflexivity.
  - rewrite IH. reflexivity.
Qed.

Lemma onboard_create_once (fuel r : nat) (hasJwt online : nat -> bool) (k : nat) :
  count_ev is_create (onboardSecondary fuel r hasJwt online k) <= 1.
Proof.
  revert r k. induction fuel as [|f IH]; intros r k; unfold count_ev in *; simpl.
  - lia.
  - destruct (hasJwt k); simpl; [lia|].
    destruct (online k); simpl; [|apply IH].
    destruct (Nat.ltb r 5); simpl; [apply IH | lia].
Qed.

Lemma onboard_sixth_probe (fuel : nat) (hasJwt online : nat -> bool) :
  (forall k, hasJwt k = false) -> (forall k, online k = true) ->
  onboardSecondary (6 + fuel) 0 hasJwt online 0
  = repeat ServerProbe 6 ++ [CreateAnonymousUser; OnboardCallback true].
Proof.
  intros Hj Ho. simpl. rewrite !Hj, !Ho. reflexivity.
Qed.

Lemma lazy_idle (f : nat -> bool) (k m : nat) :
  lazy_run (mkLazy None []) (alone_schedule f k m) = (mkLazy None [], []).
Proof.
  revert k. induction m as [|m IH]; intros k; [reflexivity|].
  simpl. rewrite IH. reflexivity.
Qed.

Lemma lazy_alone_chain (n : nat) (f : nat -> bool) (k m : nat) :
  S n <= m ->
  snd (lazy_run (mkLazy (Some n) []) (alone_schedule f k m)) = userStatusFetchChain n f k.
Proof.
  revert k m. induction n as [|n IH]; intros k m Hm;
    (destruct m as [|m]; [lia|]); simpl; destruct (f k); simpl;
    try (rewrite lazy_idle; reflexivity).
  specialize (IH (S k) m ltac:(lia)).
  change (refetchUserStatusLazily n (mkLazy None [])) with (mkLazy (Some n) []).
  destruct (lazy_run (mkLazy (Some n) []) (alone_schedule f (S k) m)) as [st2 o2].
  simpl in IH |- *. rewrite IH. reflexivity.
Qed.

Lemma campaign_alone_chain (n : nat) (f : nat -> bool) (m : nat) :
  S n <= m -> campaign_alone n f m = userStatusFetchChain n f 0.
Proof.
  intros Hm. unfold campaign_alone. simpl.
  change (refetchUserStatusLazily n (mkLazy None [])) with (mkLazy (Some n) []).
  pose proof (lazy_alone_chain n f 0 m Hm) as H.
  destruct (lazy_run (mkLazy (Some n) []) (alone_schedule f 0 m)) as [st2 o2].
  exact H.
Qed.

(** C7 (amended): a lazy login re-check started with try count [n] by
    [refetchUserStatusLazily], while no other call of it intervenes, runs
    the status check at most [n + 1] times; when every check finds the
    user logged out it runs it exactly [n + 1] times and then sets
    [check_status] once, as its last act. A failed check whose retry finds
    another timer pending is absorbed: its handler ends with neither a new
    timer nor [check_status]. In a window without focus, onboarding from
    [retry_counter = 0] creates the anonymous user at most once, and, with
    no jwt and the server online, exactly at the 6th probe. *)
Theorem retry_campaign_bounds (n : nat) (loggedInAt : nat -> bool) (m : nat)
    (Hm : S n <= m) :
  count_ev is_check (campaign_alone n loggedInAt m) <= S n
  /\ count_ev is_exhausted (campaign_alone n loggedInAt m) <= 1
  /\ ((forall k, loggedInAt k = false) ->
      campaign_alone n loggedInAt m = repeat StatusCheck (S n) ++ [SetCheckStatus])
  /\ (forall st p k rest,
        userFetchTimeout st = Some p -> awaiting st = S k :: rest ->
        handlerDone false st = (mkLazy (Some p) rest, []))
  /\ (forall fuel hasJwt online,
        count_ev is_create (onboardSecondary fuel 0 hasJwt online 0) <= 1)
  /\ (forall fuel hasJwt online,
        (forall k, hasJwt k = false) -> (forall k, online k = true) ->
        onboardSecondary (6 + fuel) 0 hasJwt online 0
        = repeat ServerProbe 6 ++ [CreateAnonymousUser; OnboardCallback true]).
Proof.
  rewrite (campaign_alone_chain n loggedInAt m Hm).
  destruct (chain_counts n loggedInAt 0) as [H1 H2].
  split; [exact H1|]. split; [exact H2|]. split; [apply chain_all_fail|].
  split.
  - intros st p k rest Hp Ha. unfold handlerDone. rewrite Ha.
    unfold refetchUserStatusLazily. simpl. rewrite Hp. reflexivity.
  - split; intros; [apply onboard_create_once | now apply onboard_sixth_probe].
Qed.

(** C7: a campaign started with count 3 that never sees the user logged in
    runs the check 4 times. *)
Lemma campaign_three_checks_four_times :
  count_ev is_check (campaign_alone 3 (fun _ => false) 4) = 4
  /\ count_ev is_exhausted (campaign_alone 3 (fun _ => false) 4) = 1.
Proof. vm_compute. split; reflexivity. Qed.

(** C8 (amended): while a retry timer is pending, [refetchUserStatusLazily]
    changes nothing; with no timer pending it schedules one, adding a live
    campaign to the handlers still awaiting their check. *)
Theorem refetch_guard (n : nat) (st : LazyState) :
  (userFetchTimeout st <> None -> refetchUserStatusLazily n st = st)
  /\ (userFetchTimeout st = None ->
      refetchUserStatusLazily n st = mkLazy (Some n) (awaiting st)
      /\ live_campaigns (refetchUserStatusLazily n st) = S (live_campaigns st)).
Proof.
  unfold refetchUserStatusLazily, live_campaigns.
  destruct (userFetchTimeout st) as [m|]; simpl.
  - split; [reflexivity | discriminate].
  - split; [intros []; reflexivity|]. intros _. split; [reflexivity | lia].
Qed.

(** C8: a call from the dashboard click while the fired handler still awaits
    its check: two campaigns are live. *)
Lemma refetch_during_check_two_live :
  let st := fold_left lazy_step [LRefetch 40; LFire; LRefetch 40] (mkLazy None []) in
  st = mkLazy (Some 40) [40] /\ live_campaigns st = 2.
Proof. vm_compute. split; reflexivity. Qed.

(* ------------------------------------------------------------------ *)
(** ** The statements at concrete inputs *)

Lemma flush_clears_only_after_recheck_witness :
  resp_ok (mkResponse true false) || resp_deactivated (mkResponse true false) = true
  /\ onBatchResponse (mkResponse true false) false (Some line_a)
     = (if false then None else Some line_a)
  /\ (false = false ->
      sendOfflineData json_parse true
        (onBatchResponse (mkResponse true false) false (Some line_a))
      = sendOfflineData json_parse true (Some line_a)).
Proof.
  split; [reflexivity|].
  apply (flush_clears_only_after_recheck json_parse true (Some line_a)
           (mkResponse true false) false).
  reflexivity.
Defined.

Lemma flush_submits_each_record_once_witness :
  let s := run json_parse (mkSys true None 0 [])
             (map EvAppend (map rec_line [true; false])
              ++ [EvFlush; EvResponse (mkResponse true false) true]) in
  posted s = [map rec_json [true; false]] /\ store_file s = None.
Proof.
  apply (flush_submits_each_record_once json_parse bool rec_line rec_json).
  - intros []; vm_compute; reflexivity.
  - intros []; vm_compute; reflexivity.
  - intros [] H; vm_compute in H; discriminate H.
  - intros []; reflexivity.
  - discriminate.
  - reflexivity.
Defined.

Lemma store_lines_parsed_independently_witness :
  payloads json_parse
    (terminated_sep [(line_a, true); (line_bad, true)] ++ line_b)%string
  = keep_some (map (parse_item json_parse) [line_a; line_bad])
    ++ payloads json_parse line_b.
Proof.
  apply (proj1 store_lines_parsed_independently).
  vm_compute. reflexivity.
Defined.

Lemma flush_has_no_inflight_guard_witness :
  let s := mkSys true (Some (line_a ++ String LF EmptyString))%string 1 [[obj_a]] in
  posted (step json_parse s EvFlush)
    = posted s ++ [payloads json_parse (line_a ++ String LF EmptyString)%string]
  /\ in_flight (step json_parse s EvFlush) = S (in_flight s)
  /\ store_file (step json_parse s EvFlush) = store_file s.
Proof.
  apply (flush_has_no_inflight_guard json_parse _ (line_a ++ String LF EmptyString)%string).
  - reflexivity.
  - reflexivity.
  - intros H; vm_compute in H; discriminate H.
Defined.

Lemma flush_posts_iff_nonempty_content_witness :
  posts (sendOfflineData json_parse true (Some line_a))
  = [payloads json_parse line_a].
Proof.
  apply (proj2 (flush_posts_iff_nonempty_content json_parse true (Some line_a))
           line_a).
  - reflexivity.
  - reflexivity.
  - intros H; vm_compute in H; discriminate H.
Defined.

Lemma offline_status_is_cached_witness :
  cache_expired (fst (getUserStatus false false T0 true initialCache)) (T0 + 1) = false
  /\ snd (getUserStatus true false (T0 + 1) true
            (fst (getUserStatus false false T0 true initialCache)))
     = mkStatus (loggedIn (snd (getUserStatus false false T0 true initialCache))) false.
Proof.
  split; [vm_compute; reflexivity|].
  apply (proj2 (proj2 (proj2 (offline_status_is_cached initialCache false T0 true)))).
  vm_compute. reflexivity.
Defined.

Lemma retry_campaign_bounds_witness :
  campaign_alone 2 (fun _ => false) 3 = repeat StatusCheck 3 ++ [SetCheckStatus]
  /\ handlerDone false (mkLazy (Some 40) [3]) = (mkLazy (Some 40) [], []).
Proof.
  destruct (retry_campaign_bounds 2 (fun _ => false) 3 ltac:(lia))
    as [_ [_ [H3 [H4 _]]]].
  split; [apply H3; intros k; reflexivity|].
  apply (H4 (mkLazy (Some 40) [3]) 40 2 []); reflexivity.
Defined.

Lemma refetch_guard_witness :
  refetchUserStatusLazily 5 (mkLazy (Some 40) []) = mkLazy (Some 40) [].
Proof.
  apply (proj1 (refetch_guard 5 (mkLazy (Some 40) []))).
  discriminate.
Defined.

(* ------------------------------------------------------------------ *)
(** ** Onboarding *)

Lemma onboardInit_S (f rc : nat) (stored : option string)
    (written : nat -> option (option string)) (jwt_id : string -> option (option Z))
    (focused online created : nat -> bool) (k : nat) :
  onboardInit (S f) rc stored written jwt_id focused online created k = [OThrow]
  \/ exists pre j1,
       (pre = [] \/ pre = [OJwtCleared])
       /\ onboardInit (S f) rc stored written jwt_id focused online created k
          = pre ++ (if str_truthy j1 then [OCallback false]
                    else if focused k then
                      primaryWindowOnboarding rc (online k) (created k)
                        (fun rc' => onboardInit f rc' j1 written jwt_id focused online created (S k))
                    else secondaryWindowOnboarding rc (online k)
                        (fun rc' => onboardInit f rc' j1 written jwt_id focused online created (S k))).
Proof.
  cbn [onboardInit]. cbv zeta.
  destruct (read_jwt stored written k) as [s|]; [|right; exists [], None; auto].
  destruct (str_truthy (Some s) && focused k); [|right; exists [], (Some s); auto].
  destruct (jwt_id s) as [[id|]|]; [|right; exists [], (Some s); auto | left; reflexivity].
  destruct (Z.gtb id 9999999999);
    [right; exists [OJwtCleared], None; auto | right; exists [], (Some s); auto].
Qed.

Lemma count_ev_app {A : Type} (p : A -> bool) (x y : list A) :
  count_ev p (x ++ y) = count_ev p x + count_ev p y.
Proof. unfold count_ev. now rewrite filter_app, length_app. Qed.

(** The offline prompt is shown at most once in an onboarding chain, and
    only when the chain starts with [retry_counter = 0]. *)
Theorem onboard_prompt_at_most_once (fuel rc : nat) (stored : option string)
    (written : nat -> option (option string)) (jwt_id : string -> option (option Z))
    (focused online created : nat -> bool) (k : nat) :
  count_ev is_prompt (onboardInit fuel rc stored written jwt_id focused online created k)
  <= (if Nat.eqb rc 0 then 1 else 0).
Proof.
  revert rc stored k. induction fuel as [|f IH]; intros rc stored k; [apply Nat.le_0_l|].
  destruct (onboardInit_S f rc stored written jwt_id focused online created k)
    as [E | [pre [j1 [Hpre E]]]]; rewrite E; [apply Nat.le_0_l|].
  rewrite count_ev_app.
  assert (Hp : count_ev is_prompt pre = 0) by (destruct Hpre; subst; reflexivity).
  rewrite Hp. simpl.
  pose proof (IH (S rc) j1 (S k)) as Hs. pose proof (IH rc j1 (S k)) as Hr.
  simpl in Hs.
  destruct (str_truthy j1); [apply Nat.le_0_l|].
  destruct (focused k).
  - unfold primaryWindowOnboarding. cbv zeta.
    destruct (online k), (created k); simpl; rewrite ?count_ev_app;
      destruct (Nat.eqb rc 0); simpl; unfold count_ev in *; simpl; lia.
  - unfold secondaryWindowOnboarding.
    destruct (online k); simpl; [|exact Hr].
    destruct (Nat.ltb rc 5); simpl; [|apply Nat.le_0_l].
    unfold count_ev in *; simpl in *; destruct (Nat.eqb rc 0); lia.
Qed.

Fixpoint final_last (l : list onboard_act) : bool :=
  match l with
  | [] => true
  | a :: r => if is_final a then match r with [] => true | _ => false end
              else final_last r
  end.

Lemma final_last_app (x y : list onboard_act) :
  forallb (fun a => negb (is_final a)) x = true ->
  final_last (x ++ y) = final_last y.
Proof.
  induction x as [|a x IH]; intros H; [reflexivity|].
  simpl in H. apply andb_true_iff in H as [Ha Hx].
  apply negb_true_iff in Ha. simpl. rewrite Ha. apply IH; exact Hx.
Qed.

Lemma final_last_spec (l : list onboard_act) :
  final_last l = true ->
  forall pre a post, l = pre ++ a :: post -> is_final a = true -> post = [].
Proof.
  induction l as [|x l IH]; intros H pre a post E Ha.
  - destruct pre; discriminate.
  - destruct pre as [|y pre]; simpl in E; inversion E; subst.
    + simpl in H. rewrite Ha in H. destruct post; [reflexivity | discriminate].
    + simpl in H. destruct (is_final y) eqn:Hy.
      * destruct pre; discriminate.
      * exact (IH H pre a post eq_refl Ha).
Qed.

Lemma onboard_final_facts (fuel rc : nat) (stored : option string)
    (written : nat -> option (option string)) (jwt_id : string -> option (option Z))
    (focused online created : nat -> bool) (k : nat) :
  count_ev is_final (onboardInit fuel rc stored written jwt_id focused online created k) <= 1
  /\ final_last (onboardInit fuel rc stored written jwt_id focused online created k) = true.
Proof.
  revert rc stored k. induction fuel as [|f IH]; intros rc stored k;
    [split; [apply Nat.le_0_l | reflexivity]|].
  destruct (onboardInit_S f rc stored written jwt_id focused online created k)
    as [E | [pre [j1 [Hpre E]]]]; rewrite E; [split; [apply le_n | reflexivity]|].
  assert (Hx : forallb (fun a => negb (is_final a)) pre = true)
    by (destruct Hpre; subst; reflexivity).
  assert (Hc : count_ev is_final pre = 0) by (destruct Hpre; subst; reflexivity).
  rewrite final_last_app by exact Hx. rewrite count_ev_app, Hc. simpl.
  assert (Hp : forallb (fun a => negb (is_final a))
                 (if Nat.eqb rc 0 then [OPrompt] else []) = true)
    by (destruct (Nat.eqb rc 0); reflexivity).
  assert (Hpc : count_ev is_final (if Nat.eqb rc 0 then [OPrompt] else []) = 0)
    by (destruct (Nat.eqb rc 0); reflexivity).
  destruct (IH (S rc) j1 (S k)) as [Hs1 Hs2].
  destruct (IH rc j1 (S k)) as [Hr1 Hr2].
  destruct (str_truthy j1); [split; [apply le_n | reflexivity]|].
  destruct (focused k).
  - unfold primaryWindowOnboarding. cbv zeta.
    destruct (online k), (created k); destruct (Nat.eqb rc 0);
      unfold count_ev in *; simpl in *; split; auto.
  - unfold secondaryWindowOnboarding.
    destruct (online k); simpl; auto.
    destruct (Nat.ltb rc 5); simpl; auto.
Qed.

(** An onboarding chain ends in at most one final act, the callback or a
    throw from [jwt_decode], and nothing follows it. *)
Theorem onboard_callback_once_and_last (fuel rc : nat) (stored : option string)
    (written : nat -> option (option string)) (jwt_id : string -> option (option Z))
    (focused online created : nat -> bool) (k : nat) :
  count_ev is_final (onboardInit fuel rc stored written jwt_id focused online created k) <= 1
  /\ (forall pre a post,
        onboardInit fuel rc stored written jwt_id focused online created k
        = pre ++ a :: post -> is_final a = true -> post = []).
Proof.
  destruct (onboard_final_facts fuel rc stored written jwt_id focused online created k)
    as [H1 H2].
  split; [exact H1 | exact (final_last_spec _ H2)].
Qed.

(** A non-empty jwt read at a call, including one another window wrote
    since the previous call, ends onboarding with [callback(ctx, false)] in
    a window without focus. In a focused window [jwt_decode] runs first:
    when it throws, [onboardInit] throws; when the id is above 9999999999
    the jwt is cleared and the window goes on to probe the server;
    otherwise the callback is called with [false]. *)
Theorem onboard_jwt_gate (fuel rc : nat) (stored : option string)
    (written : nat -> option (option string)) (jwt_id : string -> option (option Z))
    (focused online created : nat -> bool) (k : nat) (s : string)
    (Hread : read_jwt stored written k = Some s) (Hs : s <> "") :
  let r := onboardInit (S fuel) rc stored written jwt_id focused online created k in
  (focused k = false -> r = [OCallback false])
  /\ (focused k = true -> jwt_id s = None -> r = [OThrow])
  /\ (forall id, focused k = true -> jwt_id s = Some (Some id) ->
        Z.gtb id 9999999999 = true -> exists rest, r = OJwtCleared :: OProbe :: rest)
  /\ (forall d, focused k = true -> jwt_id s = Some d ->
        match d with Some id => Z.gtb id 9999999999 = false | None => True end ->
        r = [OCallback false]).
Proof.
  cbv zeta. cbn [onboardInit]. cbv zeta. rewrite Hread.
  assert (Ht : str_truthy (Some s) = true).
  { simpl. destruct (String.eqb s "") eqn:E; [|reflexivity].
    apply String.eqb_eq in E. contradiction. }
  assert (Ht' : negb (String.eqb s "") = true) by exact Ht.
  rewrite Ht. simpl.
  destruct (focused k) eqn:Hf.
  - split; [discriminate|].
    split; [intros _ Hd; rewrite Hd; reflexivity|].
    split.
    + intros id _ Hd Hg. rewrite Hd, Hg. simpl. eexists. reflexivity.
    + intros d _ Hd Hg. rewrite Hd. destruct d as [id|]; [rewrite Hg|]; simpl; rewrite ?Ht, ?Ht'; reflexivity.
  - split; [intros _; simpl; rewrite ?Ht, ?Ht'; reflexivity|].
    split; [discriminate|]. split; [intros id H; discriminate|]. intros d H; discriminate.
Qed.

(** A focused window that never reaches the server, while no window
    writes a jwt, probes it every two minutes and never creates a user;
    the offline prompt is shown once, right after the first probe. *)
Theorem onboard_offline_primary (n : nat) (jwt_id : string -> option (option Z))
    (created : nat -> bool) (k : nat) :
  onboardInit (S n) 0 None (fun _ => None) jwt_id (fun _ => true) (fun _ => false) created k
  = [OProbe; OPrompt; OWait (one_min_millis * 2)]
    ++ List.concat (repeat [OProbe; OWait (one_min_millis * 2)] n).
Proof.
  assert (H : forall m rc j, 0 < rc ->
            onboardInit m rc None (fun _ => None) jwt_id (fun _ => true) (fun _ => false) created j
            = List.concat (repeat [OProbe; OWait (one_min_millis * 2)] m)).
  { induction m as [|m IH]; intros rc j Hrc; [reflexivity|].
    cbn [onboardInit]. unfold read_jwt, primaryWindowOnboarding. simpl.
    destruct rc as [|rc]; [lia|]. simpl. rewrite IH by lia. reflexivity. }
  cbn [onboardInit]. unfold read_jwt, primaryWindowOnboarding. simpl.
  rewrite H by lia. reflexivity.
Qed.

(** A window without focus, online, while no window writes a jwt, probes
    the server six times, 15 seconds apart, and creates the anonymous user
    after the sixth probe. *)
Theorem onboard_secondary_sixth_probe (fuel : nat) (jwt_id : string -> option (option Z))
    (created : nat -> bool) :
  onboardInit (6 + fuel) 0 None (fun _ => None) jwt_id (fun _ => false) (fun _ => true) created 0
  = List.concat (repeat [OProbe; OWait (1000 * 15)] 5) ++ [OProbe; OCreate; OCallback true].
Proof. reflexivity. Qed.

(* ------------------------------------------------------------------ *)
(** ** Activation timers *)

(** [t] milliseconds after activation, the offline data has been sent once
    if [t] is at least 10 s and not at all before: no timer repeats it.
    The authentication check likewise runs once, at 5 s, while the daily
    metrics fetch runs at 100 ms and then every minute. *)
Theorem activate_schedule (t : Z) :
  runs_until t SendOfflineData = (if (10000 <=? t)%Z then 1 else 0)%Z
  /\ runs_until t CheckAuthStatus = (if (5000 <=? t)%Z then 1 else 0)%Z
  /\ runs_until t FetchDailyKpm = ((if (100 <=? t)%Z then 1 else 0) + t / 60000)%Z.
Proof.
  unfold runs_until, activate_timers, fired, one_min, hourly_interval. simpl.
  repeat split; repeat destruct (_ <=? t)%Z; ring.
Qed.

(* ------------------------------------------------------------------ *)
(** ** The login check and the session items *)

Lemma opt_str_eqb_refl (a : option string) : opt_str_eqb a a = true.
Proof. destruct a; simpl; [apply String.eqb_refl | reflexivity]. Qed.

Lemma opt_str_eqb_eq (a b : option string) : opt_str_eqb a b = true -> a = b.
Proof.
  destruct a, b; simpl; try discriminate; auto.
  intros H. apply String.eqb_eq in H. now subst.
Qed.

Lemma ok_state_iff (st : option string) :
  String.eqb (if str_truthy st then match st with Some s => s | None => "" end
              else "UNKNOWN") "OK" = true <-> st = Some "OK".
Proof.
  destruct st as [s|]; simpl.
  - destruct (String.eqb s "") eqn:E; simpl.
    + apply String.eqb_eq in E. subst. split; discriminate.
    + rewrite String.eqb_eq. split; [intros ->; reflexivity | congruence].
  - split; discriminate.
Qed.

(** The check reports the user logged on exactly when the server is
    online, a jwt is stored, the response is ok with data, and its state
    is ["OK"]; the backend is asked exactly when online with a jwt. *)
Theorem isLoggedOn_logged_on_iff (online : bool) (resp : StateResp) (it : Items) :
  (fst (snd (fst (isLoggedOn online resp it))) = true
   <-> online = true /\ str_truthy (item_jwt it) = true /\ sr_ok resp = true
       /\ exists d, sr_data resp = Some d /\ ps_state d = Some "OK")
  /\ snd (isLoggedOn online resp it) = online && str_truthy (item_jwt it).
Proof.
  unfold isLoggedOn.
  destruct (online && str_truthy (item_jwt it)) eqn:Ho.
  2:{ split; [|reflexivity]. split; [discriminate|].
      intros [H1 [H2 _]]. rewrite H1, H2 in Ho. discriminate. }
  apply andb_true_iff in Ho as [Ho Hj].
  destruct (sr_data resp) as [d|] eqn:Hd.
  2:{ split; [|reflexivity]. split; [discriminate|].
      intros [_ [_ [_ [d' [H _]]]]]. discriminate. }
  destruct (sr_ok resp) eqn:Hok.
  2:{ split; [|reflexivity]. split; [discriminate|]. intros [_ [_ [H _]]]. discriminate. }
  pose proof (ok_state_iff (ps_state d)) as Hs.
  destruct (String.eqb _ "OK") eqn:E.
  - split; [|reflexivity]. simpl. split; [intros _|reflexivity].
    repeat split; auto. exists d. split; [reflexivity|]. now apply Hs.
  - split; [|reflexivity]. simpl. split; [discriminate|].
    intros [_ [_ [_ [d' [H1 H2]]]]]. inversion H1; subst.
    apply Hs in H2. discriminate.
Qed.

(** A check that does not find the user logged on writes no item. *)
Theorem isLoggedOn_items_kept (online : bool) (resp : StateResp) (it : Items)
    (Hno : fst (snd (fst (isLoggedOn online resp it))) = false) :
  fst (fst (isLoggedOn online resp it)) = it.
Proof.
  revert Hno. unfold isLoggedOn.
  destruct (online && str_truthy (item_jwt it)); [|reflexivity].
  destruct (sr_data resp) as [d|]; [|reflexivity].
  destruct (sr_ok resp); [|reflexivity].
  destruct (String.eqb _ "OK"); [discriminate | reflexivity].
Qed.

(** After a check that finds the user logged on, the stored name is the
    account email, [check_status] is no longer set, and the stored jwt is
    the one the backend returned, when it returned a non-empty one. *)
Theorem isLoggedOn_items_after_login (online : bool) (resp : StateResp)
    (it : Items) (d : PluginState) (Hd : sr_data resp = Some d)
    (Hyes : fst (snd (fst (isLoggedOn online resp it))) = true) :
  let it' := fst (fst (isLoggedOn online resp it)) in
  item_name it' = ps_email d
  /\ item_check_status it' <> Some true
  /\ item_jwt it' = (if str_truthy (ps_jwt d) then ps_jwt d else item_jwt it).
Proof.
  revert Hyes. cbv zeta. unfold isLoggedOn. rewrite Hd.
  destruct (online && str_truthy (item_jwt it)); [|discriminate].
  destruct (sr_ok resp); [|discriminate].
  destruct (String.eqb _ "OK"); [intros _|discriminate].
  destruct it as [j n cs]; simpl.
  destruct (opt_str_eqb n (ps_email d)) eqn:En; simpl;
  destruct (str_truthy (ps_jwt d)) eqn:Ej; simpl;
  try destruct (opt_str_eqb (ps_jwt d) j) eqn:Ejj; simpl;
  destruct cs as [[|]|]; simpl;
  try (apply opt_str_eqb_eq in En);
  try (apply opt_str_eqb_eq in Ejj);
  repeat split; try congruence; try discriminate.
Qed.

Lemma isLoggedOn_ok_shape (online : bool) (resp : StateResp) (it : Items)
    (H : fst (snd (fst (isLoggedOn online resp it))) = true) :
  isLoggedOn online resp it = (fst (fst (isLoggedOn online resp it)), (true, "OK"), true).
Proof.
  revert H. unfold isLoggedOn. cbv zeta.
  destruct (online && str_truthy (item_jwt it)); [|discriminate].
  destruct (sr_data resp); [|discriminate].
  destruct (sr_ok resp); [|discriminate].
  destruct (String.eqb _ "OK") eqn:E; [|discriminate].
  intros _. apply String.eqb_eq in E. rewrite E. reflexivity.
Qed.

(** Running the check again on the items it wrote, with the same backend
    answer, changes nothing and gives the same answer. *)
Theorem isLoggedOn_idempotent (online : bool) (resp : StateResp) (it : Items) :
  isLoggedOn online resp (fst (fst (isLoggedOn online resp it)))
  = isLoggedOn online resp it.
Proof.
  destruct (fst (snd (fst (isLoggedOn online resp it)))) eqn:Hlo.
  2:{ rewrite (isLoggedOn_items_kept online resp it Hlo). reflexivity. }
  pose proof Hlo as Hiff. apply isLoggedOn_logged_on_iff in Hiff.
  destruct Hiff as [Ho [Hj [Hok [d [Hd Hst]]]]].
  pose proof (isLoggedOn_items_after_login online resp it d Hd Hlo) as Hafter.
  cbv zeta in Hafter. destruct Hafter as [Hn [Hc Hjw]].
  assert (Hsh := isLoggedOn_ok_shape online resp it Hlo).
  remember (fst (fst (isLoggedOn online resp it))) as it' eqn:Eit.
  rewrite Hsh.
  assert (Hj' : str_truthy (item_jwt it') = true).
  { rewrite Hjw. destruct (str_truthy (ps_jwt d)) eqn:E; assumption. }
  unfold isLoggedOn. cbv zeta. rewrite Ho, Hj', Hd, Hok. simpl.
  assert (Hs : String.eqb (if str_truthy (ps_state d)
                           then match ps_state d with Some s => s | None => "" end
                           else "UNKNOWN") "OK" = true)
    by (apply ok_state_iff; exact Hst).
  rewrite Hs. rewrite Hn, opt_str_eqb_refl. simpl.
  assert (Hjj : str_truthy (ps_jwt d) && negb (opt_str_eqb (ps_jwt d) (item_jwt it')) = false).
  { rewrite Hjw. destruct (str_truthy (ps_jwt d)); simpl; [|reflexivity].
    now rewrite opt_str_eqb_refl. }
  rewrite Hjj.
  apply String.eqb_eq in Hs. rewrite Hs.
  destruct (item_check_status it') as [[|]|] eqn:Ecs; [congruence|reflexivity|reflexivity].
Qed.

(* ------------------------------------------------------------------ *)
(** ** [getUserStatus] with its items and side calls *)

Ltac status_cases ign c now :=
  unfold getUserStatusFull, getUserStatus, cache_expired in *; cbv zeta;
  destruct ign, (connectState c) as [b|] eqn:Ec,
    (time_truthy (lastLoggedInCheckTime c)) as [t|] eqn:Et; simpl in *;
  try destruct (Z.gtb (now - t) 300) eqn:Eg; simpl in *;
  try rewrite Ec; simpl.

(** When the cache is bypassed (forced, empty or older than five
    minutes), the result is cached, the status says whether the backend
    was asked, a user found logged out has no stored name left, and the
    heartbeat and preference calls start exactly when logged in. *)
Theorem getUserStatusFull_fetch (online ign : bool) (now : Z)
    (resp : StateResp) (c : LoginCache) (it : Items)
    (Hfetch : ign = true \/ connectState c = None \/ cache_expired c now = true) :
  let '(c', it', st, sides) := getUserStatusFull online ign now resp c it in
  connectState c' = Some (loggedIn st)
  /\ remote_checked st = online
  /\ (loggedIn st = false -> str_truthy (item_name it') = false)
  /\ sides = (if loggedIn st then [SendHeartbeatLoggedIn; InitializePreferences] else []).
Proof.
  status_cases ign c now;
  try (destruct Hfetch as [H|[H|H]]; discriminate);
  (destruct online;
   [destruct (isLoggedOn true resp it) as [[it1 [lo s]] rq]; simpl;
    destruct lo; simpl;
    [| destruct (str_truthy (item_name it1)) eqn:En; simpl]
   | simpl; destruct (str_truthy (item_name it)) eqn:En; simpl]);
  repeat split; auto; discriminate.
Qed.

(** A call answered from the cache writes no item, starts no call and
    does not ask the backend. *)
Theorem getUserStatusFull_cached (online : bool) (now : Z)
    (resp : StateResp) (c : LoginCache) (it : Items)
    (Hcached : connectState c <> None) (Hfresh : cache_expired c now = false) :
  let '(c', it', st, sides) := getUserStatusFull online false now resp c it in
  it' = it /\ sides = [] /\ remote_checked st = false
  /\ Some (loggedIn st) = connectState c.
Proof.
  unfold getUserStatusFull, cache_expired in *; cbv zeta.
  destruct (connectState c) as [b|] eqn:Ec; [|congruence].
  destruct (time_truthy (lastLoggedInCheckTime c)) as [t|] eqn:Et; simpl in *;
  [rewrite Hfresh|]; simpl; try rewrite Ec; repeat split.
Qed.

(** [getCachedLoggedInState] never answers null: a cached state is
    returned as is, without a server probe and whatever its age; with no
    cached state it probes once and caches the forced check. *)
Theorem getCachedLoggedInState_spec (online : bool) (now : Z) (lo : bool)
    (c : LoginCache) :
  let '(c', r, probed) := getCachedLoggedInState online now lo c in
  r = connectState c' /\ r <> None
  /\ (forall b, connectState c = Some b -> r = Some b /\ probed = false /\ c' = c)
  /\ (connectState c = None ->
      probed = true /\ r = Some (online && lo)
      /\ lastLoggedInCheckTime c' = lastLoggedInCheckTime c).
Proof.
  unfold getCachedLoggedInState, getUserStatus.
  destruct (connectState c) as [b0|] eqn:Ec; simpl.
  - repeat split; congruence.
  - repeat split; try congruence; intros; try discriminate; repeat split.
Qed.

(** The cache side of [userStatusFetchHandler]: the forced check runs
    and its answer is the handler's finding; the time stamp is never
    changed. When the user is found logged in, the cached state is
    dropped, but the [getUser] of the [initializePreferences] the check
    started sets it to "logged in" again if it finds a registered user:
    then the next plain [getUserStatus] answers "logged in" from the cache
    until the time stamp is older than five minutes; otherwise the cache
    stays empty and the next plain [getUserStatus] asks the backend. When
    the user is not found, "not logged in" stays cached. *)
Theorem userStatusFetchHandler_cache (online : bool) (now : Z)
    (resp : StateResp) (user_ok : bool) (data : option User)
    (c : LoginCache) (it : Items) :
  let it1 := snd (fst (fst (getUserStatusFull online true now resp c it))) in
  let reg := user_registered_answer online user_ok (item_jwt it1) data in
  let '(c', it', found) := userStatusFetchHandlerCache online now resp user_ok data c it in
  found = online && fst (snd (fst (isLoggedOn online resp it)))
  /\ lastLoggedInCheckTime c' = lastLoggedInCheckTime c
  /\ (found = true ->
      connectState c' = (if reg then Some true else None)
      /\ (reg = false -> forall online' now' lo',
            snd (getUserStatus online' false now' lo' c') = mkStatus (online' && lo') online')
      /\ (reg = true -> forall online' now' lo', cache_expired c' now' = false ->
            snd (getUserStatus online' false now' lo' c') = mkStatus true false))
  /\ (found = false -> connectState c' = Some false /\ it' = it1).
Proof.
  cbv zeta. unfold userStatusFetchHandlerCache, getUserStatusFull. simpl.
  destruct online; simpl.
  - destruct (isLoggedOn true resp it) as [[it1 [lo s0]] rq]; simpl.
    destruct lo; simpl.
    + unfold getUser, user_registered_answer, getUserStatus, cache_expired.
      destruct (str_truthy (item_jwt it1)), user_ok, data as [u|]; simpl;
        try (repeat split; intros; discriminate).
      destruct (Z.eqb (user_registered u) 1); simpl;
        [|repeat split; intros; discriminate].
      repeat split; try discriminate.
      intros _ online' now' lo' Hf.
      destruct (time_truthy (lastLoggedInCheckTime c)) as [t|]; simpl;
        [rewrite Hf|]; reflexivity.
    + destruct (str_truthy (item_name it1)); simpl;
        repeat split; intros; discriminate.
  - destruct (str_truthy (item_name it)); simpl;
      repeat split; intros; discriminate.
Qed.

(* ------------------------------------------------------------------ *)
(** ** [writeCommitSummaryData] *)

(** The summary file always exists afterwards: it holds the server's
    summary when the request succeeded with non-empty data, and
    otherwise keeps what it held, or the placeholder when it was absent. *)
Theorem writeCommitSummaryData_spec (online : bool)
    (result : option (bool * string)) (file : option string) :
  let w := writeCommitSummaryData online result file in
  (exists s, w = Some s)
  /\ (forall d, online = true -> result = Some (true, d) -> d <> "" -> w = Some d)
  /\ ((forall d, online = true -> result = Some (true, d) -> d = "") ->
      w = match file with Some f => Some f | None => Some commit_summary_placeholder end).
Proof.
  cbv zeta. unfold writeCommitSummaryData.
  assert (Hex : forall f : option string,
            exists s, match f with Some _ => f | None => Some commit_summary_placeholder end = Some s)
    by (intros [f|]; eexists; reflexivity).
  destruct online; [|split; [apply Hex|split; [intros d Ho; discriminate|intros _; destruct file; reflexivity]]].
  destruct result as [[ok d]|];
  [|split; [apply Hex|split; [intros d Ho Hr; discriminate|intros _; destruct file; reflexivity]]].
  destruct ok; simpl;
  [|split; [apply Hex|split; [intros d' Ho Hr; discriminate|intros _; destruct file; reflexivity]]].
  destruct (String.eqb d "") eqn:Ed; simpl.
  - apply String.eqb_eq in Ed. subst d.
    split; [apply Hex|split; [intros d' _ Hr Hne; inversion Hr; subst; contradiction|]].
    intros _. destruct file; reflexivity.
  - split; [eexists; reflexivity|split].
    + intros d' _ Hr _. inversion Hr. reflexivity.
    + intros H. specialize (H d eq_refl eq_refl). subst d. discriminate.
Qed.

(* ------------------------------------------------------------------ *)
(** ** Concrete instances *)

(** A focused window, online, whose user creation succeeds at once. *)
Lemma onboard_callback_once_and_last_witness :
  let l := onboardInit 3 0 None (fun _ => None) (fun _ => Some None)
             (fun _ => true) (fun _ => true) (fun _ => true) 0 in
  l = [OProbe; OCreate] ++ OCallback true :: []
  /\ count_ev is_final l <= 1 /\ @nil onboard_act = [].
Proof.
  destruct (onboard_callback_once_and_last 3 0 None (fun _ => None) (fun _ => Some None)
              (fun _ => true) (fun _ => true) (fun _ => true) 0) as [H1 H2].
  split; [reflexivity|split; [exact H1|]].
  apply (H2 [OProbe; OCreate] (OCallback true) []); reflexivity.
Defined.

(** Another window wrote an app jwt before the second call of a focused
    window: it is decoded, found to be an app jwt, and cleared. *)
Lemma onboard_jwt_gate_witness :
  let written := fun k => if Nat.eqb k 1 then Some (Some "JWTx") else None in
  let jwt_id := fun _ : string => Some (Some 12345678901%Z) in
  read_jwt None written 1 = Some "JWTx" /\ "JWTx" <> ""
  /\ exists rest,
       onboardInit 2 1 None written jwt_id (fun _ => true) (fun _ => false)
         (fun _ => false) 1
       = OJwtCleared :: OProbe :: rest.
Proof.
  cbv zeta.
  destruct (onboard_jwt_gate 1 1 None
              (fun k => if Nat.eqb k 1 then Some (Some "JWTx") else None)
              (fun _ => Some (Some 12345678901%Z))
              (fun _ => true) (fun _ => false) (fun _ => false) 1 "JWTx"
              eq_refl ltac:(discriminate)) as [_ [_ [H3 _]]].
  split; [reflexivity|split; [discriminate|]].
  exact (H3 12345678901%Z eq_refl eq_refl eq_refl).
Defined.

(** A stored jwt and a backend answering ["OK"]. *)
Lemma isLoggedOn_logged_on_iff_witness :
  let r := mkStateResp true (Some (mkPluginState (Some "OK") (Some "a@b") None)) in
  let it := mkItems (Some "jwt1") None None in
  fst (snd (fst (isLoggedOn true r it))) = true /\ snd (isLoggedOn true r it) = true.
Proof.
  destruct (isLoggedOn_logged_on_iff true
              (mkStateResp true (Some (mkPluginState (Some "OK") (Some "a@b") None)))
              (mkItems (Some "jwt1") None None)) as [Hiff Hreq].
  split; [|exact Hreq].
  apply Hiff. split; [reflexivity|split; [reflexivity|split; [reflexivity|]]].
  eexists. split; reflexivity.
Defined.

(** A failed response leaves the items as they were. *)
Lemma isLoggedOn_items_kept_witness :
  let r := mkStateResp false (Some (mkPluginState (Some "OK") (Some "a@b") None)) in
  let it := mkItems (Some "jwt1") (Some "old") (Some true) in
  fst (snd (fst (isLoggedOn true r it))) = false /\ fst (fst (isLoggedOn true r it)) = it.
Proof.
  split; [reflexivity|].
  apply isLoggedOn_items_kept. reflexivity.
Defined.

(** The backend returns a new jwt; the old name and check flag go. *)
Lemma isLoggedOn_items_after_login_witness :
  let d := mkPluginState (Some "OK") (Some "a@b") (Some "jwt2") in
  let r := mkStateResp true (Some d) in
  let it := mkItems (Some "jwt1") (Some "old") (Some true) in
  let it' := fst (fst (isLoggedOn true r it)) in
  sr_data r = Some d /\ fst (snd (fst (isLoggedOn true r it))) = true
  /\ item_name it' = Some "a@b" /\ item_check_status it' <> Some true
  /\ item_jwt it' = Some "jwt2".
Proof.
  cbv zeta.
  destruct (isLoggedOn_items_after_login true
              (mkStateResp true (Some (mkPluginState (Some "OK") (Some "a@b") (Some "jwt2"))))
              (mkItems (Some "jwt1") (Some "old") (Some true))
              (mkPluginState (Some "OK") (Some "a@b") (Some "jwt2")) eq_refl eq_refl)
    as [Hn [Hc Hj]].
  split; [reflexivity|split; [reflexivity|split; [exact Hn|split; [exact Hc|exact Hj]]]].
Defined.

(** A forced check that finds the user logged out clears the name. *)
Lemma getUserStatusFull_fetch_witness :
  let r := mkStateResp true (Some (mkPluginState (Some "NOT_OK") None None)) in
  let it := mkItems (Some "jwt1") (Some "old") None in
  let '(c', it', st, sides) := getUserStatusFull true true T0 r initialCache it in
  connectState c' = Some false /\ remote_checked st = true
  /\ str_truthy (item_name it') = false /\ sides = [].
Proof.
  pose proof (getUserStatusFull_fetch true true T0
                (mkStateResp true (Some (mkPluginState (Some "NOT_OK") None None)))
                initialCache (mkItems (Some "jwt1") (Some "old") None)
                (or_introl eq_refl)) as H.
  simpl in H |- *. destruct H as [H1 [H2 [H3 H4]]].
  split; [exact H1|split; [exact H2|split; [exact (H3 eq_refl)|exact H4]]].
Defined.

(** A state cached ten seconds ago answers alone. *)
Lemma getUserStatusFull_cached_witness :
  let c := mkCache (Some true) (Some T0) in
  let it := mkItems (Some "jwt1") (Some "a@b") None in
  connectState c <> None /\ cache_expired c (T0 + 10) = false
  /\ let '(c', it', st, sides) :=
       getUserStatusFull true false (T0 + 10) (mkStateResp false None) c it in
     it' = it /\ sides = [] /\ remote_checked st = false
     /\ Some (loggedIn st) = connectState c.
Proof.
  cbv zeta.
  split; [discriminate|split; [reflexivity|]].
  apply getUserStatusFull_cached; [discriminate|reflexivity].
Defined.

(** A cached "not logged in" from long ago is returned without a probe. *)
Lemma getCachedLoggedInState_spec_witness :
  let c := mkCache (Some false) (Some 1%Z) in
  connectState c = Some false
  /\ let '(c', r, probed) := getCachedLoggedInState true T0 true c in
     r = Some false /\ probed = false /\ c' = c.
Proof.
  pose proof (getCachedLoggedInState_spec true T0 true (mkCache (Some false) (Some 1%Z))) as H.
  simpl in H |- *. destruct H as [_ [_ [H3 _]]].
  split; [reflexivity|exact (H3 false eq_refl)].
Defined.

(** The handler finds the user logged in; [getUser] then finds a
    registered user, so "logged in" is cached again and answers the next
    plain check; with an unregistered user the next plain check asks the
    backend, which now says logged out. *)
Lemma userStatusFetchHandler_cache_witness :
  let r := mkStateResp true (Some (mkPluginState (Some "OK") (Some "a@b") None)) in
  let it := mkItems (Some "jwt1") None None in
  let reg := mkUser 7 1 (Some "a@b") None in
  let anon := mkUser 7 0 None None in
  (let '(c', _, found) := userStatusFetchHandlerCache true T0 r true (Some reg) initialCache it in
   found = true /\ connectState c' = Some true)
  /\ (let '(c', _, found) := userStatusFetchHandlerCache true T0 r true (Some anon) initialCache it in
      found = true /\ connectState c' = None
      /\ snd (getUserStatus true false (T0 + 1) false c') = mkStatus false true).
Proof.
  pose proof (userStatusFetchHandler_cache true T0
    (mkStateResp true (Some (mkPluginState (Some "OK") (Some "a@b") None)))
    true (Some (mkUser 7 1 (Some "a@b") None)) initialCache
    (mkItems (Some "jwt1") None None)) as H1.
  pose proof (userStatusFetchHandler_cache true T0
    (mkStateResp true (Some (mkPluginState (Some "OK") (Some "a@b") None)))
    true (Some (mkUser 7 0 None None)) initialCache
    (mkItems (Some "jwt1") None None)) as H2.
  vm_compute in H1, H2 |- *.
  destruct H1 as [F1 [_ [G1 _]]]. destruct H2 as [F2 [_ [G2 _]]].
  destruct (G1 F1) as [C1 _]. destruct (G2 F2) as [C2 [N2 _]].
  split; [split; [exact F1|exact C1]|].
  split; [exact F2|split; [exact C2|exact (N2 eq_refl true (T0 + 1)%Z false)]].
Defined.

(** A successful summary is written; a failed one keeps the old file. *)
Lemma writeCommitSummaryData_spec_witness :
  writeCommitSummaryData true (Some (true, "summary")) None = Some "summary"
  /\ writeCommitSummaryData true (Some (false, "x")) (Some "old") = Some "old".
Proof.
  pose proof (writeCommitSummaryData_spec true (Some (true, "summary")) None) as Ha.
  pose proof (writeCommitSummaryData_spec true (Some (false, "x")) (Some "old")) as Hb.
  cbv zeta in Ha, Hb.
  destruct Ha as [_ [Ha _]]. destruct Hb as [_ [_ Hb]].
  split.
  - apply (Ha "summary"); [reflexivity|reflexivity|discriminate].
  - apply Hb. intros d _ Hr. discriminate.
Defined.

(* ------------------------------------------------------------------ *)
(** ** User and preferences *)

(** [getUser] on a registered user stores the email as the name and
    caches "logged in" without renewing the time stamp: while that stamp
    is fresh, a plain [getUserStatus] then answers logged in from the
    cache, without asking the backend, even when offline. *)
Theorem getUser_registered_caches_login (jwt : option string) (usr : User)
    (it : Items) (c : LoginCache) (now : Z)
    (Hj : str_truthy jwt = true) (Hreg : user_registered usr = 1%Z) :
  let '(u, it1, c1) := getUser true jwt true (Some usr) it c in
  u = Some usr /\ item_name it1 = user_email usr /\ item_jwt it1 = item_jwt it
  /\ connectState c1 = Some true
  /\ lastLoggedInCheckTime c1 = lastLoggedInCheckTime c
  /\ (cache_expired c now = false ->
      forall online' lo', snd (getUserStatus online' false now lo' c1) = mkStatus true false).
Proof.
  unfold getUser. rewrite Hj, Hreg. simpl.
  repeat split.
  intros Hfresh online' lo'. unfold getUserStatus, cache_expired in *. simpl.
  destruct (time_truthy (lastLoggedInCheckTime c)) as [t|]; simpl in *;
  [rewrite Hfresh|]; reflexivity.
Qed.

(** When the server's preferences lack [showRank] (or [showGit]),
    [initializePreferences] keeps the local [showGitMetrics] setting,
    sends it to the server, replacing a [showGit] the server did have (an
    undefined setting is sent as a missing [showGit]), and stores the
    threshold. *)
Theorem initializePreferences_local_wins (DEFAULT : Z) (cfg : option bool)
    (update_ok : bool) (usr : User) (p : Prefs) (it : Items) (c : LoginCache)
    (Hp : user_preferences usr = Some p) (Hj : str_truthy (item_jwt it) = true)
    (Hmissing : showGit p = None \/ showRank p = None) :
  let '(th, cfg1, put, _, _) :=
    initializePreferences DEFAULT true true (Some usr) cfg update_ok it c in
  th <> None /\ cfg1 = cfg
  /\ put = Some (mkPrefs (sessionThresholdInSec p) cfg (showRank p)).
Proof.
  unfold initializePreferences, getUser, sendPreferencesUpdate. rewrite Hj. simpl.
  destruct (Z.eqb (user_registered usr) 1); simpl; rewrite Hp;
  destruct (showGit p), (showRank p);
  try (destruct Hmissing; discriminate); repeat split; discriminate.
Qed.

(** The two preference paths agree when the setting is defined and the
    configuration update succeeds: after [initializePreferences], the
    server's [showGit] (as updated by its [PUT], if any) equals the local
    setting, and a following [updatePreferences] against that server
    sends nothing. *)
Theorem preferences_converge (DEFAULT : Z) (cfg : option bool) (update_ok : bool)
    (usr : User) (p : Prefs) (it : Items) (c : LoginCache)
    (Hp : user_preferences usr = Some p) (Hj : str_truthy (item_jwt it) = true)
    (Hcfg : cfg <> None) (Hupd : update_ok = true) :
  let '(_, cfg1, put, it1, c1) :=
    initializePreferences DEFAULT true true (Some usr) cfg update_ok it c in
  let p1 := match put with Some b => b | None => p end in
  showGit p1 = cfg1 /\ cfg1 <> None
  /\ fst (fst (updatePreferences true true (Some (set_preferences usr p1))
                 true (Some p1) cfg1 it1 c1)) = None.
Proof.
  subst update_ok. destruct cfg as [cfg|]; [|congruence].
  unfold initializePreferences, updatePreferences, getUser. rewrite Hj. simpl.
  destruct (Z.eqb (user_registered usr) 1) eqn:Er; simpl; rewrite Hp;
  destruct (showGit p) as [g|] eqn:Eg, (showRank p) as [r|] eqn:Erk; simpl;
  rewrite ?Hj, ?Er; simpl; rewrite ?Er, ?Eg; simpl;
  rewrite ?Bool.eqb_reflx; repeat split; discriminate.
Qed.

(** With the [showGitMetrics] setting undefined, [updatePreferences]
    sends a [PUT] whenever it gets the user's preferences, its body
    without [showGit], whatever the server holds; and when the server has
    both preferences, [initializePreferences] tries to update the setting,
    and if that update rejects, the setting stays undefined and no
    threshold is stored. *)
Theorem preferences_unset_setting (DEFAULT : Z) (usr : User) (p : Prefs)
    (it : Items) (c : LoginCache) (Hj : str_truthy (item_jwt it) = true) :
  fst (fst (updatePreferences true true (Some usr) true (Some p) None it c))
    = Some (mkPrefs (sessionThresholdInSec p) None (showRank p))
  /\ (user_preferences usr = Some p -> showGit p <> None -> showRank p <> None ->
      let '(th, cfg1, put, _, _) :=
        initializePreferences DEFAULT true true (Some usr) None false it c in
      th = None /\ cfg1 = None /\ put = None).
Proof.
  unfold initializePreferences, updatePreferences, getUser. rewrite Hj. simpl.
  split.
  - destruct (Z.eqb (user_registered usr) 1); simpl;
      destruct (showGit p); reflexivity.
  - intros Hp Hg Hr.
    destruct (Z.eqb (user_registered usr) 1); simpl; rewrite Hp;
    destruct (showGit p), (showRank p); try congruence; repeat split.
Qed.

(** A registered user with a fresh cached stamp. *)
Lemma getUser_registered_caches_login_witness :
  let usr := mkUser 7 1 (Some "a@b") None in
  let it := mkItems (Some "jwt1") None None in
  let c := mkCache (Some false) (Some T0) in
  str_truthy (Some "jwt1") = true /\ user_registered usr = 1%Z
  /\ cache_expired c (T0 + 10) = false
  /\ let '(u, it1, c1) := getUser true (Some "jwt1") true (Some usr) it c in
     snd (getUserStatus false false (T0 + 10) false c1) = mkStatus true false.
Proof.
  cbv zeta.
  pose proof (getUser_registered_caches_login (Some "jwt1") (mkUser 7 1 (Some "a@b") None)
                (mkItems (Some "jwt1") None None) (mkCache (Some false) (Some T0))
                (T0 + 10)%Z eq_refl eq_refl) as H.
  simpl in H |- *. destruct H as [_ [_ [_ [_ [_ H]]]]].
  split; [reflexivity|split; [reflexivity|split; [reflexivity|]]].
  exact (H eq_refl false false).
Defined.

(** The server has [showGit = false] but no [showRank]; the local
    setting [true] is kept and sent. *)
Lemma initializePreferences_local_wins_witness :
  let p := mkPrefs (Some 900%Z) (Some false) None in
  let usr := mkUser 7 1 (Some "a@b") (Some p) in
  let it := mkItems (Some "jwt1") None None in
  user_preferences usr = Some p /\ str_truthy (item_jwt it) = true
  /\ let '(th, cfg1, put, _, _) :=
       initializePreferences 300 true true (Some usr) (Some true) false it initialCache in
     th <> None /\ cfg1 = Some true
     /\ put = Some (mkPrefs (Some 900%Z) (Some true) None).
Proof.
  cbv zeta.
  split; [reflexivity|split; [reflexivity|]].
  apply (initializePreferences_local_wins 300 (Some true) false
           (mkUser 7 1 (Some "a@b") (Some (mkPrefs (Some 900%Z) (Some false) None)))
           (mkPrefs (Some 900%Z) (Some false) None) (mkItems (Some "jwt1") None None)
           initialCache eq_refl eq_refl (or_intror eq_refl)).
Defined.

(** Both preferences set on the server: the local setting follows it. *)
Lemma preferences_converge_witness :
  let p := mkPrefs None (Some false) (Some true) in
  let usr := mkUser 7 0 None (Some p) in
  let it := mkItems (Some "jwt1") None None in
  user_preferences usr = Some p /\ str_truthy (item_jwt it) = true
  /\ let '(_, cfg1, put, it1, c1) :=
       initializePreferences 300 true true (Some usr) (Some true) true it initialCache in
     cfg1 = Some false /\ put = None
     /\ fst (fst (updatePreferences true true (Some usr) true (Some p) cfg1 it1 c1)) = None.
Proof.
  cbv zeta.
  pose proof (preferences_converge 300 (Some true) true
                (mkUser 7 0 None (Some (mkPrefs None (Some false) (Some true))))
                (mkPrefs None (Some false) (Some true)) (mkItems (Some "jwt1") None None)
                initialCache eq_refl eq_refl ltac:(discriminate) eq_refl) as H.
  simpl in H |- *. destruct H as [_ [_ H]].
  split; [reflexivity|split; [reflexivity|]].
  split; [reflexivity|split; [reflexivity|exact H]].
Defined.

(** The server agrees with nothing the editor holds: with the setting
    undefined, a server [showGit = true] still gets a [PUT]; the rejected
    update stores no threshold. *)
Lemma preferences_unset_setting_witness :
  let p := mkPrefs (Some 900%Z) (Some true) (Some false) in
  let usr := mkUser 7 1 (Some "a@b") (Some p) in
  let it := mkItems (Some "jwt1") None None in
  str_truthy (item_jwt it) = true
  /\ fst (fst (updatePreferences true true (Some usr) true (Some p) None it initialCache))
     = Some (mkPrefs (Some 900%Z) None (Some false))
  /\ let '(th, cfg1, put, _, _) :=
       initializePreferences 300 true true (Some usr) None false it initialCache in
     th = None /\ cfg1 = None /\ put = None.
Proof.
  cbv zeta.
  destruct (preferences_unset_setting 300
              (mkUser 7 1 (Some "a@b") (Some (mkPrefs (Some 900%Z) (Some true) (Some false))))
              (mkPrefs (Some 900%Z) (Some true) (Some false))
              (mkItems (Some "jwt1") None None) initialCache eq_refl) as [H1 H2].
  split; [reflexivity|split; [exact H1|]].
  exact (H2 eq_refl ltac:(discriminate) ltac:(discriminate)).
Defined.
